(** * Ledger service: accounts, transfers and the fund-transfer workflow

    A shallow embedding of the service and repository layers of the
    banking API (internal/models, internal/repos, internal/service) and
    the properties of the transfer workflow and of account creation.

    Modelling conventions.
    - Monetary amounts are Python [float] columns and request fields.
      The tables and the workflow are modelled on exact integers: whole
      amounts, on which the additions, subtractions and comparisons of
      the code are exact.  The properties are kept to what one such
      operation or comparison gives; what several rounded operations
      give together is computed in [Float64], at binary64.
    - A UUID is a natural number below 2^128.
    - The timestamp columns [created_at] and [updated_at] are left out
      of the rows; the one operation that reads [created_at], the
      transfer history, takes the column as a function of the row.
    - The database is PostgreSQL seen through a SQLAlchemy session.  The
      session keeps the rows as the open transaction sees them ([txn]),
      the changes staged but not yet sent ([dirty]) and the state made
      durable by the last successful COMMIT ([durable]).
    - Python exceptions are the [Raise] outcome of a small state and
      error monad; [try ... except] is [catch].
    - Whatever the code takes from outside (fresh UUIDs, the calendar
      year, a COMMIT that the database refuses) comes from an [Env]. *)

From Stdlib Require Import Floats.PrimFloat.
From Stdlib Require Import ZArith NArith List String Ascii Bool Lia.
From Stdlib Require Import Sorting.Permutation Sorting.Sorted.
Import ListNotations.
Local Open Scope Z_scope.

(** A decimal float literal denotes the nearest binary64 value, as it
    does in Python. *)
Set Warnings "-inexact-float".

(* ------------------------------------------------------------------ *)
(** ** internal/models *)

Definition UUID := N.

Inductive AccountStatus := ACTIVE | INACTIVE | SUSPENDED | CLOSED.
Inductive TransferStatus := PENDING | COMPLETED | FAILED | CANCELLED.
Inductive TransferType := INITIAL_DEPOSIT | STANDARD.

Definition AccountStatus_eqb (a b : AccountStatus) : bool :=
  match a, b with
  | ACTIVE, ACTIVE | INACTIVE, INACTIVE
  | SUSPENDED, SUSPENDED | CLOSED, CLOSED => true
  | _, _ => false
  end.

Definition TransferType_eqb (a b : TransferType) : bool :=
  match a, b with
  | INITIAL_DEPOSIT, INITIAL_DEPOSIT | STANDARD, STANDARD => true
  | _, _ => false
  end.

Module CustomerDB.
Record t := mk { id : UUID; name : string }.
End CustomerDB.

Module AccountDB.
Record t := mk {
    id : UUID;
    customer_id : UUID;
    account_number : string;
    current_balance : Z;
    version : Z;
    status : AccountStatus
  }.
End AccountDB.

Module TransferDB.
Record t := mk {
    id : UUID;
    source_account_id : UUID;
    destination_account_id : UUID;
    amount : Z;
    idempotency_key : UUID;
    description : string;
    transfer_type : TransferType;
    status : TransferStatus;
    is_initial_deposit : bool
  }.

Definition set_status (x : t) (s : TransferStatus) : t :=
    mk (id x) (source_account_id x) (destination_account_id x) (amount x)
       (idempotency_key x) (description x) (transfer_type x) s
       (is_initial_deposit x).
End TransferDB.

Module CreateTransferRequest.
Record t := mk {
    source_account_id : UUID;
    destination_account_id : UUID;
    amount : Z;
    idempotency_key : UUID;
    description : string;
    transfer_type : TransferType
  }.
End CreateTransferRequest.

(** The JSON body of POST /transfers: the last three fields are optional. *)
Module TransferBody.
Record t := mk {
    source_account_id : UUID;
    destination_account_id : UUID;
    amount : Z;
    idempotency_key : option UUID;
    description : option string;
    transfer_type : option TransferType
  }.
End TransferBody.

(** [CreateTransferRequest] as pydantic builds it from a body.  The
    class attribute [idempotency_key: UUID = get_uuid()] is evaluated
    when the class body runs, at import: [module_uuid] is that one
    value, used for every body that carries no key. *)
Definition parse_transfer_request (module_uuid : UUID) (b : TransferBody.t)
  : CreateTransferRequest.t :=
  CreateTransferRequest.mk
    (TransferBody.source_account_id b)
    (TransferBody.destination_account_id b)
    (TransferBody.amount b)
    (match TransferBody.idempotency_key b with
     | Some k => k
     | None => module_uuid
     end)
    (match TransferBody.description b with
     | Some d => d
     | None => EmptyString
     end)
    (match TransferBody.transfer_type b with
     | Some ty => ty
     | None => STANDARD
     end).

Module TransferDetailsResponse.
Record t := mk {
    id : UUID;
    source_account_id : UUID;
    destination_account_id : UUID;
    amount : Z;
    status : TransferStatus;
    description : string;
    transfer_type : TransferType
  }.

Definition model_validate (x : TransferDB.t) : t :=
    mk (TransferDB.id x) (TransferDB.source_account_id x)
       (TransferDB.destination_account_id x) (TransferDB.amount x)
       (TransferDB.status x) (TransferDB.description x)
       (TransferDB.transfer_type x).
End TransferDetailsResponse.

Module CreateAccountRequest.
Record t := mk { customer_id : UUID; initial_deposit : Z }.
End CreateAccountRequest.

Module AccountDetailsResponse.
Record t := mk {
    id : UUID;
    customer_id : UUID;
    account_number : string;
    status : AccountStatus
  }.

Definition model_validate (a : AccountDB.t) : t :=
    mk (AccountDB.id a) (AccountDB.customer_id a)
       (AccountDB.account_number a) (AccountDB.status a).
End AccountDetailsResponse.

Module AccountBalanceResponse.
Record t := mk {
    id : UUID;
    customer_id : UUID;
    account_number : string;
    current_balance : Z
  }.

Definition model_validate (a : AccountDB.t) : t :=
    mk (AccountDB.id a) (AccountDB.customer_id a)
       (AccountDB.account_number a) (AccountDB.current_balance a).
End AccountBalanceResponse.

Module CustomerFindResponse.
Record t := mk { id : UUID; name : string }.

Definition model_validate (c : CustomerDB.t) : t :=
    mk (CustomerDB.id c) (CustomerDB.name c).
End CustomerFindResponse.

(* ------------------------------------------------------------------ *)
(** ** internal/helpers/app_exceptions and the exceptions in play *)

Inductive AppErrorType :=
| ERROR_USER_ID_DOES_NOT_EXIST
| ERROR_UNIQUE_CONSTRAINT
| ERROR_CONCURRENT_UPDATE
| ERROR_NOT_FOUND
| ERROR_DATABASE.

(** The [detail] texts of the exceptions the two services raise; the
    values an f-string interpolates are the constructor's arguments. *)
Inductive Detail :=
| Transfer_amount_must_be_positive
| Source_and_destination_accounts_cannot_be_the_same
| Insufficient_funds (available requested : Z)
| Account_is_not_active (id : UUID)
| Account_not_found
| Customer_not_found
| Transfer_not_found
| Initial_deposit_cannot_be_negative
| Idempotency_key_already_exists
| Failed_to_create_transfer
| Failed_to_update_transfer_status
| Failed_to_update_account_balance
| Database_detail
| Error_while_processing_the_transfer
| Failed_to_create_account
| Failed_to_get_account_balance
| Failed_to_get_all_accounts
| Failed_to_get_transfer.

(** What makes the database refuse a statement or a COMMIT. *)
Inductive DbFailure :=
| UniqueViolation
| CheckViolation
| StaleRow
| ConnectionFailure.

Inductive Exn :=
| HTTPException (status_code : Z) (detail : Detail)
| AppError (type_ : AppErrorType) (detail : Detail) (status_code : Z)
| DBAPIError (orig : DbFailure)
| AttributeError.

(** The error kinds of the specification, by status code and detail. *)
Definition InvalidAmount : Exn :=
  HTTPException 400 Transfer_amount_must_be_positive.
Definition SameAccount : Exn :=
  HTTPException 400 Source_and_destination_accounts_cannot_be_the_same.
Definition InsufficientFunds (available requested : Z) : Exn :=
  HTTPException 400 (Insufficient_funds available requested).
Definition AccountNotActive (id : UUID) : Exn :=
  HTTPException 400 (Account_is_not_active id).
Definition AccountNotFound : Exn := HTTPException 404 Account_not_found.
Definition CustomerNotFound : Exn := HTTPException 404 Customer_not_found.
Definition NegativeDeposit : Exn :=
  HTTPException 400 Initial_deposit_cannot_be_negative.

(* ------------------------------------------------------------------ *)
(** ** The database: three tables and the statements sent to them *)

Record DB := mkDB {
  customers : list CustomerDB.t;
  accounts : list AccountDB.t;
  transfers : list TransferDB.t
}.

Definition find_customer (db : DB) (i : UUID) : option CustomerDB.t :=
  find (fun c => N.eqb (CustomerDB.id c) i) (customers db).

Definition find_account (db : DB) (i : UUID) : option AccountDB.t :=
  find (fun a => N.eqb (AccountDB.id a) i) (accounts db).

Definition find_transfer (db : DB) (i : UUID) : option TransferDB.t :=
  find (fun x => N.eqb (TransferDB.id x) i) (transfers db).

Definition find_transfer_by_key (db : DB) (k : UUID) : option TransferDB.t :=
  find (fun x => N.eqb (TransferDB.idempotency_key x) k) (transfers db).

Definition find_account_by_number (db : DB) (n : string)
  : option AccountDB.t :=
  find (fun a => String.eqb (AccountDB.account_number a) n) (accounts db).

Definition is_some {A} (o : option A) : bool :=
  match o with Some _ => true | None => false end.

Inductive Stmt :=
| InsertAccount (a : AccountDB.t)
| InsertTransfer (x : TransferDB.t)
| UpdateAccount (id : UUID) (current_balance version : Z)
| UpdateTransferStatus (id : UUID) (status : TransferStatus).

Definition set_balance (a : AccountDB.t) (b v : Z) : AccountDB.t :=
  AccountDB.mk (AccountDB.id a) (AccountDB.customer_id a)
    (AccountDB.account_number a) b v (AccountDB.status a).

Definition put_account (i : UUID) (b v : Z) (l : list AccountDB.t)
  : list AccountDB.t :=
  map (fun a => if N.eqb (AccountDB.id a) i then set_balance a b v else a) l.

Definition put_status (i : UUID) (s : TransferStatus) (l : list TransferDB.t)
  : list TransferDB.t :=
  map (fun x => if N.eqb (TransferDB.id x) i
                then TransferDB.set_status x s else x) l.

(** One statement against the tables, with the constraints of the
    schema: primary keys, [account_number UNIQUE],
    [idempotency_key UNIQUE], [CHECK current_balance >= 0]. *)
Definition exec_stmt (db : DB) (st : Stmt) : DbFailure + DB :=
  match st with
  | InsertAccount a =>
      if is_some (find_account db (AccountDB.id a))
         || is_some (find_account_by_number db (AccountDB.account_number a))
      then inl UniqueViolation
      else if AccountDB.current_balance a <? 0 then inl CheckViolation
      else inr (mkDB (customers db) (accounts db ++ [a]) (transfers db))
  | InsertTransfer x =>
      if is_some (find_transfer db (TransferDB.id x))
         || is_some (find_transfer_by_key db (TransferDB.idempotency_key x))
      then inl UniqueViolation
      else inr (mkDB (customers db) (accounts db) (transfers db ++ [x]))
  | UpdateAccount i b v =>
      if negb (is_some (find_account db i)) then inl StaleRow
      else if b <? 0 then inl CheckViolation
      else inr (mkDB (customers db) (put_account i b v (accounts db))
                  (transfers db))
  | UpdateTransferStatus i s =>
      if negb (is_some (find_transfer db i)) then inl StaleRow
      else inr (mkDB (customers db) (accounts db)
                  (put_status i s (transfers db)))
  end.

Fixpoint exec_all (db : DB) (l : list Stmt) : DbFailure + DB :=
  match l with
  | [] => inr db
  | st :: l' =>
      match exec_stmt db st with
      | inl f => inl f
      | inr db' => exec_all db' l'
      end
  end.

(* ------------------------------------------------------------------ *)
(** ** The session and the monad of the service code *)

Record Env := mkEnv {
  uuid_source : nat -> UUID;     (* the n-th value of uuid.uuid4() *)
  commit_fails : nat -> bool;    (* the database refuses the n-th COMMIT *)
  current_year : string          (* the year, as strftime gives it *)
}.

Record Session := mkSession {
  durable : DB;            (* after the last successful COMMIT *)
  txn : DB;                (* as the open transaction sees the tables *)
  dirty : list Stmt;       (* staged, not yet flushed *)
  journal : list DB;       (* every durable state so far, newest first *)
  n_commits : nat;
  n_uuids : nat
}.

Definition open_session (db : DB) : Session := mkSession db db [] [] 0 0.

Inductive Outcome (A : Type) :=
| Ret (a : A)
| Raise (e : Exn).
Arguments Ret {A} a.
Arguments Raise {A} e.

Definition M (A : Type) : Type := Env -> Session -> Outcome A * Session.

Definition ret {A} (a : A) : M A := fun _ s => (Ret a, s).
Definition raise {A} (e : Exn) : M A := fun _ s => (Raise e, s).

Definition bind {A B} (m : M A) (k : A -> M B) : M B :=
  fun env s =>
    match m env s with
    | (Ret a, s') => k a env s'
    | (Raise e, s') => (Raise e, s')
    end.

Definition catch {A} (m : M A) (h : Exn -> M A) : M A :=
  fun env s =>
    match m env s with
    | (Ret a, s') => (Ret a, s')
    | (Raise e, s') => h e env s'
    end.

Declare Scope monad_scope.
Delimit Scope monad_scope with monad.
Notation "x <- m ;; k" := (bind m (fun x => k))
  (at level 61, m at next level, right associativity) : monad_scope.
Notation "m ;;; k" := (bind m (fun _ => k))
  (at level 61, right associativity) : monad_scope.
Local Open Scope monad_scope.

Definition get_session : M Session := fun _ s => (Ret s, s).

(** internal/helpers/utils.py: get_uuid *)
Definition get_uuid : M UUID :=
  fun env s =>
    (Ret (uuid_source env (n_uuids s)),
     mkSession (durable s) (txn s) (dirty s) (journal s) (n_commits s)
       (S (n_uuids s))).

(** [session.add(item)] and attribute assignment on a loaded row. *)
Definition session_stage (st : Stmt) : M unit :=
  fun _ s =>
    (Ret tt,
     mkSession (durable s) (txn s) (dirty s ++ [st]) (journal s)
       (n_commits s) (n_uuids s)).

(** [session.flush()]: the staged statements go to the database. *)
Definition session_flush : M unit :=
  fun _ s =>
    match exec_all (txn s) (dirty s) with
    | inl f => (Raise (DBAPIError f), s)
    | inr db =>
        (Ret tt,
         mkSession (durable s) db [] (journal s) (n_commits s) (n_uuids s))
    end.

(** [session.commit()]: flush, then COMMIT. *)
Definition session_commit : M unit :=
  session_flush ;;;
  fun env s =>
    let s' := mkSession (durable s) (txn s) (dirty s) (journal s)
                (S (n_commits s)) (n_uuids s) in
    if commit_fails env (n_commits s)
    then (Raise (DBAPIError ConnectionFailure), s')
    else (Ret tt,
          mkSession (txn s) (txn s) (dirty s) (txn s :: journal s)
            (S (n_commits s)) (n_uuids s)).

(** [session.rollback()] *)
Definition session_rollback : M unit :=
  fun _ s =>
    (Ret tt,
     mkSession (durable s) (durable s) [] (journal s) (n_commits s)
       (n_uuids s)).

(** [session.query(...).first()]: autoflush, then read. *)
Definition session_query {A} (q : DB -> option A) : M (option A) :=
  session_flush ;;;
  s <- get_session ;;
  ret (q (txn s)).

(** [session.refresh(item)]: the row is read again by primary key. *)
Definition session_refresh {A} (q : DB -> option A) : M A :=
  s <- get_session ;;
  match q (txn s) with
  | Some a => ret a
  | None => raise (DBAPIError StaleRow)
  end.

(** A service call gets a session of its own (internal/dependencies,
    closed when the request ends): what outlives the call is the durable
    state. *)
Definition run {A} (m : M A) (env : Env) (db : DB) : Outcome A * DB :=
  let (r, s) := m env (open_session db) in (r, durable s).

(* ------------------------------------------------------------------ *)
(** ** Exceptions with further detail texts, the customers table, ORDER BY *)

(** The detail texts of internal/repos/customer.py and of the transfer
    history, which [Detail] does not list. *)
Inductive MoreDetail :=
| Customer_already_exists
| Failed_to_get_transfer_history.

Inductive AnyExn :=
| Earlier (e : Exn)
| HTTPException_more (status_code : Z) (detail : MoreDetail).

Inductive Result (A : Type) :=
| Returns (a : A)
| Raises (e : AnyExn).
Arguments Returns {A} a.
Arguments Raises {A} e.

(** The monad of the code that raises them. *)
Definition W (A : Type) : Type := Env -> Session -> Result A * Session.

Definition lift {A} (m : M A) : W A :=
  fun env s =>
    match m env s with
    | (Ret a, s') => (Returns a, s')
    | (Raise e, s') => (Raises (Earlier e), s')
    end.

Definition returns {A} (a : A) : W A := fun _ s => (Returns a, s).
Definition raises {A} (e : AnyExn) : W A := fun _ s => (Raises e, s).

Definition bindW {A B} (m : W A) (k : A -> W B) : W B :=
  fun env s =>
    match m env s with
    | (Returns a, s') => k a env s'
    | (Raises e, s') => (Raises e, s')
    end.

Definition catchW {A} (m : W A) (h : AnyExn -> W A) : W A :=
  fun env s =>
    match m env s with
    | (Returns a, s') => (Returns a, s')
    | (Raises e, s') => h e env s'
    end.

Definition runW {A} (m : W A) (env : Env) (db : DB) : Result A * DB :=
  let (r, s) := m env (open_session db) in (r, durable s).

Definition find_customer_by_name (db : DB) (n : string)
  : option CustomerDB.t :=
  find (fun c => String.eqb (CustomerDB.name c) n) (customers db).

(** INSERT INTO customers: the primary key is the only constraint (the
    uniqueness of names is checked by the repository, not by the
    schema). *)
Definition insert_customer (db : DB) (c : CustomerDB.t) : DbFailure + DB :=
  if is_some (find_customer db (CustomerDB.id c)) then inl UniqueViolation
  else inr (mkDB (customers db ++ [c]) (accounts db) (transfers db)).

(** [session.add(customer)]: the one write to the customers table.  The
    source sends it with the flush of the [session.commit()] on the next
    line; here it is sent at once, after what was staged before. *)
Definition session_add_customer (c : CustomerDB.t) : M unit :=
  session_flush ;;;
  fun _ s =>
    match insert_customer (txn s) c with
    | inl f => (Raise (DBAPIError f), s)
    | inr db =>
        (Ret tt,
         mkSession (durable s) db (dirty s) (journal s) (n_commits s)
           (n_uuids s))
    end.

(** [session.query(...).all()] with no ORDER BY: autoflush, then the rows
    of the table in an order of the database's choosing.  [scan] is that
    choice; all it promises is to rearrange the rows. *)
Definition rearranges {A} (scan : list A -> list A) : Prop :=
  forall l, Permutation (scan l) l.

Definition session_all {A} (scan : list A -> list A) (table : DB -> list A)
  : M (list A) :=
  session_flush ;;;
  s <- get_session ;;
  ret (scan (table (txn s))).

(** ORDER BY key DESC; rows with equal keys stay in table order (the
    database promises no order among them). *)
Fixpoint insert_desc {A} (key : A -> Z) (x : A) (l : list A) : list A :=
  match l with
  | [] => [x]
  | y :: l' => if key y <=? key x then x :: l else y :: insert_desc key x l'
  end.

Definition order_by_desc {A} (key : A -> Z) (l : list A) : list A :=
  fold_right (insert_desc key) [] l.

(* ------------------------------------------------------------------ *)
(** ** internal/helpers/utils.py *)

Definition hex_chars : string := "0123456789abcdef".

Definition hex_char (d : N) : ascii :=
  match String.get (N.to_nat d) hex_chars with
  | Some c => c
  | None => "0"%char
  end.

(** The i-th of the 32 hexadecimal digits of [str(u)], dashes removed. *)
Definition uuid_hex (u : UUID) (i : N) : ascii :=
  hex_char (N.modulo (N.div u (N.pow 16 (31 - i))) 16).

Definition uuid_hex4 (u : UUID) (i : N) : string :=
  String (uuid_hex u i)
    (String (uuid_hex u (i + 1))
       (String (uuid_hex u (i + 2))
          (String (uuid_hex u (i + 3)) EmptyString))).

Definition generate_unique_account_number : M string :=
  unique_id <- get_uuid ;;
  fun env s =>
    (Ret ("DE-" ++ current_year env ++ "-" ++ uuid_hex4 unique_id 0
            ++ "-" ++ uuid_hex4 unique_id 4)%string, s).

(* ------------------------------------------------------------------ *)
(** ** internal/repos/customer.py *)

Module CustomerRepo.
Definition get_customer (customer_id : UUID) : M CustomerDB.t :=
    customer <- session_query (fun db => find_customer db customer_id) ;;
    match customer with
    | None => raise (HTTPException 404 Customer_not_found)
    | Some c => ret c
    end.

(** [CustomerDB(name=name)]: the id is the default of the mapped
    dataclass, [default=get_uuid()], evaluated once when
    models/customer.py is imported; [default_id] is that value. *)
Definition create_customer (default_id : UUID) (name : string)
  : W CustomerDB.t :=
    bindW (lift (session_query (fun db => find_customer_by_name db name)))
      (fun customer =>
         match customer with
         | Some _ => raises (HTTPException_more 400 Customer_already_exists)
         | None =>
             let customer := CustomerDB.mk default_id name in
             lift (session_add_customer customer ;;;
                   session_commit ;;;
                   session_refresh
                     (fun db => find_customer db (CustomerDB.id customer)))
         end).

Definition get_all_customers (scan : list CustomerDB.t -> list CustomerDB.t)
    : M (list CustomerDB.t) :=
    session_all scan customers.
End CustomerRepo.

(* ------------------------------------------------------------------ *)
(** ** internal/service/customer.py *)

Module CustomerService.
Definition create_customer (default_id : UUID) (name : string)
  : W CustomerFindResponse.t :=
    bindW (CustomerRepo.create_customer default_id name)
      (fun customer => returns (CustomerFindResponse.model_validate customer)).

Definition get_customer (customer_id : UUID) : M CustomerFindResponse.t :=
    customer <- CustomerRepo.get_customer customer_id ;;
    ret (CustomerFindResponse.model_validate customer).

Definition get_all_customers (scan : list CustomerDB.t -> list CustomerDB.t)
    : M (list CustomerFindResponse.t) :=
    customers <- CustomerRepo.get_all_customers scan ;;
    ret (map CustomerFindResponse.model_validate customers).
End CustomerService.

(* ------------------------------------------------------------------ *)
(** ** internal/repos/account.py *)

Module AccountRepo.
Definition create_account (item : AccountDB.t) : M AccountDB.t :=
    catch
      (session_stage (InsertAccount item) ;;;
       session_commit ;;;
       session_refresh (fun db => find_account db (AccountDB.id item)))
      (fun e =>
         match e with
         | DBAPIError UniqueViolation =>
             raise (AppError ERROR_UNIQUE_CONSTRAINT Database_detail 400)
         | _ => raise e
         end).

Definition get_account (account_id : UUID) : M AccountDB.t :=
    account <- session_query (fun db => find_account db account_id) ;;
    match account with
    | None => raise (HTTPException 404 Account_not_found)
    | Some a => ret a
    end.

Definition get_all_accounts (scan : list AccountDB.t -> list AccountDB.t)
    : M (list AccountDB.t) :=
    session_all scan accounts.

Definition update_account_balance (account_id : UUID) (new_balance : Z)
    : M AccountDB.t :=
    catch
      (account <- session_query (fun db => find_account db account_id) ;;
       match account with
       | None => raise (AppError ERROR_NOT_FOUND Account_not_found 404)
       | Some a =>
           session_stage
             (UpdateAccount account_id new_balance (AccountDB.version a + 1)) ;;;
           session_flush ;;;
           session_commit ;;;
           session_refresh (fun db => find_account db account_id)
       end)
      (fun e =>
         match e with
         | AppError _ _ _ => raise e
         | _ =>
             raise (AppError ERROR_DATABASE Failed_to_update_account_balance
                      500)
         end).
End AccountRepo.

(* ------------------------------------------------------------------ *)
(** ** internal/repos/transfer.py *)

Module TransferRepo.
  (** The context manager: COMMIT when the block returns, ROLLBACK and
      re-raise on any exception of the block or of that COMMIT. *)
Definition transaction {A} (block : M A) : M A :=
    catch
      (r <- block ;;
       session_commit ;;;
       ret r)
      (fun e => session_rollback ;;; raise e).

  (** Both callers build [item] with an id, so the branch that draws one
      for [item.id is None] is not taken.  The last handler of the source
      names [AppErrorType.ERROR_INTERNAL], which the enumeration does not
      have: reaching it raises [AttributeError]. *)
Definition create_transfer (item : TransferDB.t) : M TransferDB.t :=
    catch
      (session_stage (InsertTransfer item) ;;;
       session_commit ;;;
       session_refresh (fun db => find_transfer db (TransferDB.id item)))
      (fun e =>
         match e with
         | DBAPIError orig =>
             session_rollback ;;;
             match orig with
             | UniqueViolation =>
                 raise (AppError ERROR_UNIQUE_CONSTRAINT
                          Idempotency_key_already_exists 400)
             | _ => raise (AppError ERROR_DATABASE Failed_to_create_transfer
                             500)
             end
         | _ => session_rollback ;;; raise AttributeError
         end).

Definition get_transfer (transfer_id : UUID) : M TransferDB.t :=
    transfer <- session_query (fun db => find_transfer db transfer_id) ;;
    match transfer with
    | None => raise (AppError ERROR_NOT_FOUND Transfer_not_found 404)
    | Some x => ret x
    end.

Definition get_transfer_by_idempotency_key (idempotency_key : UUID)
    : M (option TransferDB.t) :=
    session_query (fun db => find_transfer_by_key db idempotency_key).

Definition update_transfer_status (transfer_id : UUID)
      (transfer_status : TransferStatus) : M TransferDB.t :=
    transfer <- get_transfer transfer_id ;;
    session_stage (UpdateTransferStatus (TransferDB.id transfer)
                     transfer_status) ;;;
    catch
      (session_commit ;;;
       session_refresh (fun db => find_transfer db (TransferDB.id transfer)))
      (fun _ =>
         session_rollback ;;;
         raise (AppError ERROR_DATABASE Failed_to_update_transfer_status 500)).

(** [created_at] is the column of that name, which the rows of the
    model leave out, as a function of the row.  OFFSET skips rows of the
    ordered result, LIMIT bounds what is left. *)
Definition get_account_transfers (created_at : TransferDB.t -> Z)
      (account_id : UUID) (limit offset : nat) : M (list TransferDB.t) :=
    session_flush ;;;
    s <- get_session ;;
    ret (firstn limit
           (skipn offset
              (order_by_desc created_at
                 (filter
                    (fun x =>
                       N.eqb (TransferDB.source_account_id x) account_id
                       || N.eqb (TransferDB.destination_account_id x)
                            account_id)
                    (transfers (txn s)))))).
End TransferRepo.

(* ------------------------------------------------------------------ *)
(** ** internal/service/transfer.py *)

Module TransferService.
Definition _validate_account_status (account : AccountDB.t) : M unit :=
    if AccountStatus_eqb (AccountDB.status account) ACTIVE
    then ret tt
    else raise (HTTPException 400
                  (Account_is_not_active (AccountDB.id account))).

Definition _validate_transfer_request (request : CreateTransferRequest.t)
    : M unit :=
    if CreateTransferRequest.amount request <=? 0
    then raise (HTTPException 400 Transfer_amount_must_be_positive)
    else if N.eqb (CreateTransferRequest.source_account_id request)
                  (CreateTransferRequest.destination_account_id request)
            && negb (TransferType_eqb
                       (CreateTransferRequest.transfer_type request)
                       INITIAL_DEPOSIT)
    then raise (HTTPException 400
                  Source_and_destination_accounts_cannot_be_the_same)
    else ret tt.

  (** The body of [with self.transfer_repo.transaction():].  The two
    loaded rows are objects of the session, read again from the tables
    after each COMMIT.  Between loading a row and the last use of its
    balance this call writes to it only when source and destination are
    one account and the source is debited, which validation excludes
    (one account is accepted only for INITIAL_DEPOSIT, which is not
    debited): the balances used are the loaded ones. *)
Definition transfer_block (request : CreateTransferRequest.t)
    : M TransferDetailsResponse.t :=
    let amount := CreateTransferRequest.amount request in
    let transfer_type := CreateTransferRequest.transfer_type request in
    source_account <-
      AccountRepo.get_account
        (CreateTransferRequest.source_account_id request) ;;
    destination_account <-
      AccountRepo.get_account
        (CreateTransferRequest.destination_account_id request) ;;
    _validate_account_status source_account ;;;
    _validate_account_status destination_account ;;;
    (if (AccountDB.current_balance source_account <? amount)
        && negb (TransferType_eqb transfer_type INITIAL_DEPOSIT)
     then raise (HTTPException 400
                   (Insufficient_funds
                      (AccountDB.current_balance source_account) amount))
     else ret tt) ;;;
    transfer_id <- get_uuid ;;
    transfer <-
      TransferRepo.create_transfer
        (TransferDB.mk transfer_id
           (CreateTransferRequest.source_account_id request)
           (CreateTransferRequest.destination_account_id request)
           amount
           (CreateTransferRequest.idempotency_key request)
           (CreateTransferRequest.description request)
           transfer_type PENDING false) ;;
    (if negb (TransferType_eqb transfer_type INITIAL_DEPOSIT)
     then
       AccountRepo.update_account_balance (AccountDB.id source_account)
         (AccountDB.current_balance source_account - amount) ;;;
       ret tt
     else ret tt) ;;;
    AccountRepo.update_account_balance (AccountDB.id destination_account)
      (AccountDB.current_balance destination_account + amount) ;;;
    transfer <-
      TransferRepo.update_transfer_status (TransferDB.id transfer)
        COMPLETED ;;
    ret (TransferDetailsResponse.model_validate transfer).

Definition create_transfer (request : CreateTransferRequest.t)
    : M TransferDetailsResponse.t :=
    _validate_transfer_request request ;;;
    existing_transfer <-
      TransferRepo.get_transfer_by_idempotency_key
        (CreateTransferRequest.idempotency_key request) ;;
    match existing_transfer with
    | Some x => ret (TransferDetailsResponse.model_validate x)
    | None =>
        catch
          (TransferRepo.transaction (transfer_block request))
          (fun e =>
             match e with
             | HTTPException _ _ => raise e
             | AppError _ detail status_code =>
                 raise (HTTPException status_code detail)
             | _ =>
                 raise (HTTPException 500
                          Error_while_processing_the_transfer)
             end)
    end.

Definition get_transfer (transfer_id : UUID)
    : M TransferDetailsResponse.t :=
    catch
      (transfer <- TransferRepo.get_transfer transfer_id ;;
       ret (TransferDetailsResponse.model_validate transfer))
      (fun e =>
         match e with
         | HTTPException _ _ => raise e
         | _ => raise (HTTPException 500 Failed_to_get_transfer)
         end).

(** The repository is called with its defaults, limit 100 and offset 0. *)
Definition get_account_transfer_history (created_at : TransferDB.t -> Z)
      (account_id : UUID) : W (list TransferDetailsResponse.t) :=
    catchW
      (lift
         (AccountRepo.get_account account_id ;;;
          transfers <-
            TransferRepo.get_account_transfers created_at account_id 100 0 ;;
          ret (map TransferDetailsResponse.model_validate transfers)))
      (fun e =>
         match e with
         | Earlier (HTTPException _ _) | HTTPException_more _ _ => raises e
         | _ => raises (HTTPException_more 500 Failed_to_get_transfer_history)
         end).
End TransferService.

(* ------------------------------------------------------------------ *)
(** ** internal/service/account.py *)

Module AccountService.
Definition create_account (request : CreateAccountRequest.t)
    : M AccountDetailsResponse.t :=
    let initial_deposit := CreateAccountRequest.initial_deposit request in
    if initial_deposit <? 0
    then raise (HTTPException 400 Initial_deposit_cannot_be_negative)
    else
      catch
        (CustomerRepo.get_customer (CreateAccountRequest.customer_id request))
        (fun exp => raise exp) ;;;
      catch
        (account_number <- generate_unique_account_number ;;
         account_id <- get_uuid ;;
         account <-
           AccountRepo.create_account
             (AccountDB.mk account_id
                (CreateAccountRequest.customer_id request)
                account_number 0 1 ACTIVE) ;;
         account <-
           (if initial_deposit >? 0
            then
              transfer_id <- get_uuid ;;
              idempotency_key <- get_uuid ;;
              TransferRepo.create_transfer
                (TransferDB.mk transfer_id
                   (AccountDB.id account) (AccountDB.id account)
                   initial_deposit idempotency_key "Initial deposit"
                   INITIAL_DEPOSIT COMPLETED true) ;;;
              AccountRepo.update_account_balance (AccountDB.id account)
                (AccountDB.current_balance account + initial_deposit)
            else ret account) ;;
         ret (AccountDetailsResponse.model_validate account))
        (fun _ => raise (HTTPException 500 Failed_to_create_account)).


Definition get_all_accounts (scan : list AccountDB.t -> list AccountDB.t)
    : M (list AccountDetailsResponse.t) :=
    catch
      (accounts <- AccountRepo.get_all_accounts scan ;;
       ret (map AccountDetailsResponse.model_validate accounts))
      (fun _ => raise (HTTPException 500 Failed_to_get_all_accounts)).
End AccountService.

(* ------------------------------------------------------------------ *)
(** ** What a call leaves behind, and the outcomes in closed form *)

Definition with_account (db : DB) (a : AccountDB.t) : DB :=
  mkDB (customers db) (accounts db ++ [a]) (transfers db).

Definition with_transfer (db : DB) (x : TransferDB.t) : DB :=
  mkDB (customers db) (accounts db) (transfers db ++ [x]).

Definition with_balance (db : DB) (i : UUID) (b v : Z) : DB :=
  mkDB (customers db) (put_account i b v (accounts db)) (transfers db).

Definition with_status (db : DB) (i : UUID) (s : TransferStatus) : DB :=
  mkDB (customers db) (accounts db) (put_status i s (transfers db)).

(** The result of a call, the durable state it leaves and the durable
    states it went through (newest first). *)
Definition observe {A} (p : Outcome A * Session)
  : Outcome A * DB * list DB :=
  (fst p, durable (snd p), journal (snd p)).

Definition is_active (a : AccountDB.t) : bool :=
  AccountStatus_eqb (AccountDB.status a) ACTIVE.

Definition is_initial_deposit_request (r : CreateTransferRequest.t) : bool :=
  TransferType_eqb (CreateTransferRequest.transfer_type r) INITIAL_DEPOSIT.

(** Step 1 of the workflow accepts the request. *)
Definition passes_validation (r : CreateTransferRequest.t) : Prop :=
  0 < CreateTransferRequest.amount r /\
  (CreateTransferRequest.source_account_id r
   <> CreateTransferRequest.destination_account_id r
   \/ CreateTransferRequest.transfer_type r = INITIAL_DEPOSIT).

(** The row [create_transfer] inserts for a request. *)
Definition pending_row (r : CreateTransferRequest.t) (transfer_id : UUID)
  : TransferDB.t :=
  TransferDB.mk transfer_id
    (CreateTransferRequest.source_account_id r)
    (CreateTransferRequest.destination_account_id r)
    (CreateTransferRequest.amount r)
    (CreateTransferRequest.idempotency_key r)
    (CreateTransferRequest.description r)
    (CreateTransferRequest.transfer_type r) PENDING false.

(** Every path of [TransferService.create_transfer] from a session with
    nothing staged, [c] COMMITs and [u] UUIDs drawn so far: the outcome,
    the durable state and the journal.  [create_transfer_closed] proves
    the code equal to it. *)
Definition transfer_outcome (r : CreateTransferRequest.t) (env : Env)
    (db : DB) (j : list DB) (c u : nat)
  : Outcome TransferDetailsResponse.t * DB * list DB :=
  let src := CreateTransferRequest.source_account_id r in
  let dst := CreateTransferRequest.destination_account_id r in
  let amount := CreateTransferRequest.amount r in
  let debit := negb (is_initial_deposit_request r) in
  if amount <=? 0 then (Raise InvalidAmount, db, j)
  else if N.eqb src dst && debit then (Raise SameAccount, db, j)
  else
    match find_transfer_by_key db (CreateTransferRequest.idempotency_key r)
    with
    | Some x => (Ret (TransferDetailsResponse.model_validate x), db, j)
    | None =>
      match find_account db src, find_account db dst with
      | None, _ | Some _, None => (Raise AccountNotFound, db, j)
      | Some sa, Some da =>
        if negb (is_active sa)
        then (Raise (AccountNotActive (AccountDB.id sa)), db, j)
        else if negb (is_active da)
        then (Raise (AccountNotActive (AccountDB.id da)), db, j)
        else if (AccountDB.current_balance sa <? amount) && debit
        then (Raise (InsufficientFunds (AccountDB.current_balance sa) amount),
              db, j)
        else
          let x := pending_row r (uuid_source env u) in
          if is_some (find_transfer db (uuid_source env u))
          then (Raise (HTTPException 400 Idempotency_key_already_exists),
                db, j)
          else if commit_fails env c
          then (Raise (HTTPException 500 Failed_to_create_transfer), db, j)
          else
            let db1 := with_transfer db x in
            let j1 := db1 :: j in
            if debit && commit_fails env (S c)
            then (Raise (HTTPException 500 Failed_to_update_account_balance),
                  db1, j1)
            else
              let db2 :=
                if debit
                then with_balance db1 src
                       (AccountDB.current_balance sa - amount)
                       (AccountDB.version sa + 1)
                else db1 in
              let j2 := if debit then db2 :: j1 else j1 in
              let c2 := if debit then S (S c) else S c in
              if (AccountDB.current_balance da + amount <? 0)
                 || commit_fails env c2
              then (Raise (HTTPException 500
                             Failed_to_update_account_balance), db2, j2)
              else
                let db3 :=
                  with_balance db2 dst
                    (AccountDB.current_balance da + amount)
                    (AccountDB.version da + 1) in
                let j3 := db3 :: j2 in
                if commit_fails env (S c2)
                then (Raise (HTTPException 500
                               Failed_to_update_transfer_status), db3, j3)
                else
                  let db4 := with_status db3 (uuid_source env u) COMPLETED in
                  let j4 := db4 :: j3 in
                  if commit_fails env (S (S c2))
                  then (Raise (HTTPException 500
                                 Error_while_processing_the_transfer),
                        db4, j4)
                  else
                    (Ret (TransferDetailsResponse.model_validate
                            (TransferDB.set_status x COMPLETED)),
                     db4, db4 :: j4)
      end
    end.

(** The account number [generate_unique_account_number] builds from the
    [u]-th UUID. *)
Definition new_account_number (env : Env) (u : nat) : string :=
  ("DE-" ++ current_year env ++ "-" ++ uuid_hex4 (uuid_source env u) 0
     ++ "-" ++ uuid_hex4 (uuid_source env u) 4)%string.

(** The rows [AccountService.create_account] inserts. *)
Definition new_account (r : CreateAccountRequest.t) (env : Env) (u : nat)
  : AccountDB.t :=
  AccountDB.mk (uuid_source env (S u)) (CreateAccountRequest.customer_id r)
    (new_account_number env u) 0 1 ACTIVE.

Definition deposit_row (r : CreateAccountRequest.t) (env : Env) (u : nat)
  : TransferDB.t :=
  TransferDB.mk (uuid_source env (S (S u)))
    (uuid_source env (S u)) (uuid_source env (S u))
    (CreateAccountRequest.initial_deposit r)
    (uuid_source env (S (S (S u)))) "Initial deposit"
    INITIAL_DEPOSIT COMPLETED true.

(** Every path of [AccountService.create_account];
    [create_account_closed] proves the code equal to it. *)
Definition account_outcome (r : CreateAccountRequest.t) (env : Env)
    (db : DB) (j : list DB) (c u : nat)
  : Outcome AccountDetailsResponse.t * DB * list DB :=
  let deposit := CreateAccountRequest.initial_deposit r in
  let a := new_account r env u in
  let x := deposit_row r env u in
  if deposit <? 0 then (Raise NegativeDeposit, db, j)
  else
    match find_customer db (CreateAccountRequest.customer_id r) with
    | None => (Raise CustomerNotFound, db, j)
    | Some _ =>
      if is_some (find_account db (AccountDB.id a))
         || is_some (find_account_by_number db (AccountDB.account_number a))
         || commit_fails env c
      then (Raise (HTTPException 500 Failed_to_create_account), db, j)
      else
        let db1 := with_account db a in
        let j1 := db1 :: j in
        if deposit >? 0
        then
          if is_some (find_transfer db (TransferDB.id x))
             || is_some (find_transfer_by_key db
                           (TransferDB.idempotency_key x))
             || commit_fails env (S c)
          then (Raise (HTTPException 500 Failed_to_create_account), db1, j1)
          else
            let db2 := with_transfer db1 x in
            let j2 := db2 :: j1 in
            if commit_fails env (S (S c))
            then (Raise (HTTPException 500 Failed_to_create_account),
                  db2, j2)
            else
              let db3 := with_balance db2 (AccountDB.id a) deposit 2 in
              (Ret (AccountDetailsResponse.model_validate
                      (set_balance a deposit 2)),
               db3, db3 :: j2)
        else (Ret (AccountDetailsResponse.model_validate a), db1, j1)
    end.






Definition status_of (db : DB) (i : UUID) : option TransferStatus :=
  option_map TransferDB.status (find_transfer db i).


Definition balance_of (db : DB) (i : UUID) : option Z :=
  option_map AccountDB.current_balance (find_account db i).

Definition version_of (db : DB) (i : UUID) : option Z :=
  option_map AccountDB.version (find_account db i).

(** The environment in which the database refuses nothing. *)
Definition never_fails (env : Env) : Prop :=
  forall n, commit_fails env n = false.

(* ------------------------------------------------------------------ *)
(** ** The data of tests/conftest.py and the requests of the scenarios *)

Definition CUSTOMER_ID_1 : UUID := 1%N.
Definition CUSTOMER_ID_2 : UUID := 2%N.
Definition CUSTOMER_ID_3 : UUID := 3%N.
Definition CUSTOMER_ID_4 : UUID := 4%N.
Definition ACCOUNT_ID_1 : UUID := 0x11111111111111111111111111111111%N.
Definition ACCOUNT_ID_2 : UUID := 0x22222222222222222222222222222222%N.
Definition ACCOUNT_ID_3 : UUID := 0x33333333333333333333333333333333%N.
Definition ACCOUNT_ID_4 : UUID := 0x44444444444444444444444444444444%N.
Definition TRANSFER_ID_1 : UUID := 0xaaaaaaaaaaaaaaaaaaaaaaaaaaaaaaaa%N.
Definition TRANSFER_ID_2 : UUID := 0xbbbbbbbbbbbbbbbbbbbbbbbbbbbbbbbb%N.
Definition KEY_1 : UUID := 0xa1%N.
Definition KEY_2 : UUID := 0xa2%N.

Definition seed_database : DB :=
  mkDB
    [ CustomerDB.mk CUSTOMER_ID_1 "Arisha Barron";
      CustomerDB.mk CUSTOMER_ID_2 "Branden Gibson";
      CustomerDB.mk CUSTOMER_ID_3 "Rhonda Church";
      CustomerDB.mk CUSTOMER_ID_4 "Georgina Hazel" ]
    [ AccountDB.mk ACCOUNT_ID_1 CUSTOMER_ID_1 "DE-2025-AAAA-BBBB" 1000 1
        ACTIVE;
      AccountDB.mk ACCOUNT_ID_2 CUSTOMER_ID_2 "DE-2025-CCCC-DDDD" 500 1
        ACTIVE;
      AccountDB.mk ACCOUNT_ID_3 CUSTOMER_ID_1 "DE-2025-EEEE-FFFF" 250 1
        ACTIVE;
      AccountDB.mk ACCOUNT_ID_4 CUSTOMER_ID_3 "DE-2025-GGGG-HHHH" 0 1
        INACTIVE ]
    [ TransferDB.mk TRANSFER_ID_1 ACCOUNT_ID_1 ACCOUNT_ID_2 100 KEY_1
        "Initial test transfer" STANDARD COMPLETED false;
      TransferDB.mk TRANSFER_ID_2 ACCOUNT_ID_2 ACCOUNT_ID_3 50 KEY_2
        "Second test transfer" STANDARD COMPLETED false ].

(** UUIDs 0xc0, 0xc1, ... and a database that accepts every COMMIT. *)
Definition env_ok : Env :=
  mkEnv (fun n => (0xc0 + N.of_nat n)%N) (fun _ => false) "2025".

(** The same, but the database refuses the COMMIT number [k]. *)
Definition env_failing_commit (k : nat) : Env :=
  mkEnv (fun n => (0xc0 + N.of_nat n)%N) (fun n => Nat.eqb n k) "2025".

(** Account 1 to account 2, amount 200, a key of its own. *)
Definition transfer_200 : CreateTransferRequest.t :=
  CreateTransferRequest.mk ACCOUNT_ID_1 ACCOUNT_ID_2 200 0xe1%N
    "Test transfer" STANDARD.


(** Amount 0 under the key of a transfer that exists. *)
Definition replay_with_amount_0 : CreateTransferRequest.t :=
  CreateTransferRequest.mk ACCOUNT_ID_1 ACCOUNT_ID_2 0 KEY_1
    "Initial test transfer" STANDARD.

(** Account 3 (balance 250) to the inactive account 4, amount 500. *)
Definition transfer_500_to_inactive : CreateTransferRequest.t :=
  CreateTransferRequest.mk ACCOUNT_ID_3 ACCOUNT_ID_4 500 0xe2%N
    "Test transfer to inactive account" STANDARD.

(** Two bodies without an idempotency key; the second asks for amount -5. *)
Definition body_without_key_1 : TransferBody.t :=
  TransferBody.mk ACCOUNT_ID_1 ACCOUNT_ID_2 200 None None None.

Definition body_without_key_2 : TransferBody.t :=
  TransferBody.mk ACCOUNT_ID_2 ACCOUNT_ID_3 (-5) None None None.

Definition body_without_key_3 : TransferBody.t :=
  TransferBody.mk ACCOUNT_ID_2 ACCOUNT_ID_3 70 None None None.

Definition account_with_deposit_50 : CreateAccountRequest.t :=
  CreateAccountRequest.mk CUSTOMER_ID_1 50.

(** Account 1 to itself: amount 0, amount 50, and amount 50 as an
    INITIAL_DEPOSIT. *)
Definition self_transfer_amount_0 : CreateTransferRequest.t :=
  CreateTransferRequest.mk ACCOUNT_ID_1 ACCOUNT_ID_1 0 0xe3%N
    "Test transfer to self" STANDARD.

Definition self_transfer_50 : CreateTransferRequest.t :=
  CreateTransferRequest.mk ACCOUNT_ID_1 ACCOUNT_ID_1 50 0xe3%N
    "Test transfer to self" STANDARD.

Definition self_deposit_50 : CreateTransferRequest.t :=
  CreateTransferRequest.mk ACCOUNT_ID_1 ACCOUNT_ID_1 50 0xe3%N
    "Test transfer to self" INITIAL_DEPOSIT.

(** Account 3 (balance 250) to account 2, amount 500: as a STANDARD
    transfer and as an INITIAL_DEPOSIT. *)
Definition transfer_500_from_account_3 : CreateTransferRequest.t :=
  CreateTransferRequest.mk ACCOUNT_ID_3 ACCOUNT_ID_2 500 0xe4%N
    "Test insufficient funds transfer" STANDARD.


(** The transfer of the seed data again, under its key. *)
Definition replay_of_transfer_1 : CreateTransferRequest.t :=
  CreateTransferRequest.mk ACCOUNT_ID_1 ACCOUNT_ID_2 100 KEY_1
    "Initial test transfer" STANDARD.

Definition account_without_deposit : CreateAccountRequest.t :=
  CreateAccountRequest.mk CUSTOMER_ID_2 0.

Definition account_with_negative_deposit : CreateAccountRequest.t :=
  CreateAccountRequest.mk 0x99%N (-1).

Definition account_for_unknown_customer : CreateAccountRequest.t :=
  CreateAccountRequest.mk 0x99%N 10.

(** The value [get_uuid()] had when models/transfer.py was imported. *)
Definition MODULE_UUID : UUID := 0xd0%N.

(** What the calls of the scenarios return and leave behind. *)
Definition transfer_200_done : Outcome TransferDetailsResponse.t * DB :=
  Eval vm_compute in
    run (TransferService.create_transfer transfer_200) env_ok seed_database.

Definition self_deposit_50_done : Outcome TransferDetailsResponse.t * DB :=
  Eval vm_compute in
    run (TransferService.create_transfer self_deposit_50) env_ok seed_database.


Definition first_call_without_key : Outcome TransferDetailsResponse.t * DB :=
  Eval vm_compute in
    run (TransferService.create_transfer
           (parse_transfer_request MODULE_UUID body_without_key_1))
      env_ok seed_database.

Definition account_with_deposit_50_done
  : Outcome AccountDetailsResponse.t * DB :=
  Eval vm_compute in
    run (AccountService.create_account account_with_deposit_50) env_ok
      seed_database.

(* ------------------------------------------------------------------ *)
(** ** Histories of durable states *)




(* ------------------------------------------------------------------ *)
(** ** The balance updates at the source's number type *)

(** [current_balance] and [amount] are floats in the source.  These are
    the two computations of [TransferService.create_transfer]
    (internal/service/transfer.py, lines 81 to 87) at binary64: the new
    source balance, computed unless the type is INITIAL_DEPOSIT, and the
    new destination balance. *)
Module Float64.
Definition new_source_balance (current_balance amount : float) : float :=
  (current_balance - amount)%float.

Definition new_destination_balance (current_balance amount : float)
  : float :=
  (current_balance + amount)%float.

(** The balances of source and destination after a call that returns. *)
Definition balances_after (transfer_type : TransferType)
    (source_balance destination_balance amount : float) : float * float :=
  (if TransferType_eqb transfer_type INITIAL_DEPOSIT
   then source_balance
   else new_source_balance source_balance amount,
   new_destination_balance destination_balance amount).
End Float64.

(* ------------------------------------------------------------------ *)
(** ** Definitions for the further properties *)

Definition transfer_to_unknown_account : CreateTransferRequest.t :=
  CreateTransferRequest.mk ACCOUNT_ID_1 0x99%N 50 0xe6%N
    "Test transfer" STANDARD.
Definition transfer_50_to_inactive : CreateTransferRequest.t :=
  CreateTransferRequest.mk ACCOUNT_ID_1 ACCOUNT_ID_4 50 0xe7%N
    "Test transfer to inactive account" STANDARD.
Definition transfer_50_from_inactive : CreateTransferRequest.t :=
  CreateTransferRequest.mk ACCOUNT_ID_4 ACCOUNT_ID_1 50 0xe8%N
    "Test transfer from inactive account" STANDARD.
Definition env_drawing (u : UUID) : Env :=
  mkEnv (fun _ => u) (fun _ => false) "2025".

Definition account_identity (a : AccountDB.t)
  : UUID * UUID * string * AccountStatus :=
  (AccountDB.id a, AccountDB.customer_id a, AccountDB.account_number a,
   AccountDB.status a).

Definition transfer_ids_unique (db : DB) : Prop :=
  NoDup (map TransferDB.id (transfers db)).

(** The transfer has the account as its source or its destination. *)
Definition involves (account_id : UUID) (x : TransferDB.t) : bool :=
  N.eqb (TransferDB.source_account_id x) account_id
  || N.eqb (TransferDB.destination_account_id x) account_id.

(** No row of the list is newer than [x]. *)
Definition newest_first {A} (key : A -> Z) : list A -> Prop :=
  StronglySorted (fun x y => key y <= key x).

Definition created_at_by_id (x : TransferDB.t) : Z :=
  Z.of_N (TransferDB.id x).

Definition env_later : Env :=
  mkEnv (fun n => (0xd0 + N.of_nat n)%N) (fun _ => false) "2025".

Definition with_customer (db : DB) (c : CustomerDB.t) : DB :=
  mkDB (customers db ++ [c]) (accounts db) (transfers db).

(** What [CustomerService.create_customer] returns and leaves durable. *)
Definition customer_outcome (default_id : UUID) (name : string) (env : Env)
    (db : DB) : Result CustomerFindResponse.t * DB :=
  let c := CustomerDB.mk default_id name in
  match find_customer_by_name db name with
  | Some _ => (Raises (HTTPException_more 400 Customer_already_exists), db)
  | None =>
      if is_some (find_customer db default_id)
      then (Raises (Earlier (DBAPIError UniqueViolation)), db)
      else if commit_fails env 0
      then (Raises (Earlier (DBAPIError ConnectionFailure)), db)
      else (Returns (CustomerFindResponse.model_validate c),
            with_customer db c)
  end.

Definition customer_added : Result CustomerFindResponse.t * DB :=
  Eval vm_compute in
    runW (CustomerService.create_customer 0xc0%N "Carla Diaz") env_ok
      seed_database.

(* ------------------------------------------------------------------ *)
(** * Lemmas *)

(** ** Lookups after a write *)

Lemma find_app_none {A} (f : A -> bool) l x :
  find f l = None -> find f (l ++ [x]) = if f x then Some x else None.
Proof.
  induction l as [|y l IH]; simpl; [reflexivity|].
  destruct (f y); [discriminate|exact IH].
Qed.

Lemma find_app_some {A} (f : A -> bool) l x y :
  find f l = Some y -> find f (l ++ [x]) = Some y.
Proof.
  induction l as [|z l IH]; simpl; [discriminate|].
  destruct (f z); [trivial|exact IH].
Qed.

Lemma find_account_id db i a : find_account db i = Some a -> AccountDB.id a = i.
Proof.
  unfold find_account. intros H. apply find_some in H. destruct H as [_ H].
  now apply N.eqb_eq in H.
Qed.

Lemma find_put_account_same l i b v a :
  find (fun a => N.eqb (AccountDB.id a) i) l = Some a ->
  find (fun a => N.eqb (AccountDB.id a) i) (put_account i b v l)
  = Some (set_balance a b v).
Proof.
  induction l as [|x l IH]; simpl; [discriminate|].
  destruct (N.eqb (AccountDB.id x) i) eqn:E.
  - intros [= <-]. simpl. now rewrite E.
  - intros H. rewrite E. auto.
Qed.

Lemma find_put_account_other l i j b v :
  i <> j ->
  find (fun a => N.eqb (AccountDB.id a) j) (put_account i b v l)
  = find (fun a => N.eqb (AccountDB.id a) j) l.
Proof.
  intros Hij. induction l as [|x l IH]; simpl; [reflexivity|].
  destruct (N.eqb (AccountDB.id x) i) eqn:E; simpl.
  - apply N.eqb_eq in E. 
    destruct (N.eqb (AccountDB.id x) j) eqn:E'.
    + apply N.eqb_eq in E'. congruence.
    + exact IH.
  - destruct (N.eqb (AccountDB.id x) j); [reflexivity|exact IH].
Qed.

Lemma find_put_status_same l i s x :
  find (fun y => N.eqb (TransferDB.id y) i) l = Some x ->
  find (fun y => N.eqb (TransferDB.id y) i) (put_status i s l)
  = Some (TransferDB.set_status x s).
Proof.
  induction l as [|y l IH]; simpl; [discriminate|].
  destruct (N.eqb (TransferDB.id y) i) eqn:E.
  - intros [= <-]. simpl. now rewrite E.
  - intros H. rewrite E. auto.
Qed.

Lemma find_account_with_balance_same db i b v a :
  find_account db i = Some a ->
  find_account (with_balance db i b v) i = Some (set_balance a b v).
Proof. apply find_put_account_same. Qed.

Lemma find_account_with_balance_other db i j b v :
  i <> j -> find_account (with_balance db i b v) j = find_account db j.
Proof. apply find_put_account_other. Qed.

Lemma find_account_with_transfer db x i :
  find_account (with_transfer db x) i = find_account db i.
Proof. reflexivity. Qed.

Lemma find_transfer_with_balance db i b v k :
  find_transfer (with_balance db i b v) k = find_transfer db k.
Proof. reflexivity. Qed.

Lemma find_transfer_with_transfer_new db x :
  find_transfer db (TransferDB.id x) = None ->
  find_transfer (with_transfer db x) (TransferDB.id x) = Some x.
Proof.
  intros H. unfold find_transfer, with_transfer. cbn [transfers].
  unfold find_transfer in H. rewrite (find_app_none _ _ _ H).
  now rewrite N.eqb_refl.
Qed.

Lemma find_transfer_with_status_same db i s x :
  find_transfer db i = Some x ->
  find_transfer (with_status db i s) i = Some (TransferDB.set_status x s).
Proof. apply find_put_status_same. Qed.

(** *** The repository operations on a session with nothing staged *)

Lemma get_account_eq env d t j c u i :
  AccountRepo.get_account i env (mkSession d t [] j c u) =
  match find_account t i with
  | Some a => (Ret a, mkSession d t [] j c u)
  | None => (Raise AccountNotFound, mkSession d t [] j c u)
  end.
Proof.
  cbv [AccountRepo.get_account session_query bind session_flush get_session
       ret raise dirty txn durable journal n_commits n_uuids exec_all].
  destruct (find_account t i); reflexivity.
Qed.

Lemma get_customer_eq env d t j c u i :
  CustomerRepo.get_customer i env (mkSession d t [] j c u) =
  match find_customer t i with
  | Some a => (Ret a, mkSession d t [] j c u)
  | None => (Raise CustomerNotFound, mkSession d t [] j c u)
  end.
Proof.
  cbv [CustomerRepo.get_customer session_query bind session_flush get_session
       ret raise dirty txn durable journal n_commits n_uuids exec_all].
  destruct (find_customer t i); reflexivity.
Qed.

Lemma get_transfer_by_idempotency_key_eq env d t j c u k :
  TransferRepo.get_transfer_by_idempotency_key k env (mkSession d t [] j c u) =
  (Ret (find_transfer_by_key t k), mkSession d t [] j c u).
Proof. reflexivity. Qed.

Lemma create_transfer_eq env d t j c u x :
  TransferRepo.create_transfer x env (mkSession d t [] j c u) =
  if is_some (find_transfer t (TransferDB.id x))
     || is_some (find_transfer_by_key t (TransferDB.idempotency_key x))
  then (Raise (AppError ERROR_UNIQUE_CONSTRAINT
                 Idempotency_key_already_exists 400),
        mkSession d d [] j c u)
  else if commit_fails env c
  then (Raise (AppError ERROR_DATABASE Failed_to_create_transfer 500),
        mkSession d d [] j (S c) u)
  else (Ret x, mkSession (with_transfer t x) (with_transfer t x) []
                 (with_transfer t x :: j) (S c) u).
Proof.
  cbv [TransferRepo.create_transfer catch bind session_stage session_commit
       session_flush session_refresh session_rollback get_session ret raise
       dirty txn durable journal n_commits n_uuids app exec_all].
  cbv [exec_stmt].
  destruct (find_transfer t (TransferDB.id x)) eqn:E1; cbv [is_some orb];
    [reflexivity|].
  destruct (find_transfer_by_key t (TransferDB.idempotency_key x));
    [reflexivity|].
  destruct (commit_fails env c); [reflexivity|].
  fold (with_transfer t x).
  rewrite (find_transfer_with_transfer_new _ _ E1). reflexivity.
Qed.

Lemma update_account_balance_eq env d t j c u i nb :
  AccountRepo.update_account_balance i nb env (mkSession d t [] j c u) =
  match find_account t i with
  | None =>
      (Raise (AppError ERROR_NOT_FOUND Account_not_found 404),
       mkSession d t [] j c u)
  | Some a =>
      let v := AccountDB.version a + 1 in
      if nb <? 0
      then (Raise (AppError ERROR_DATABASE Failed_to_update_account_balance
                     500),
            mkSession d t [UpdateAccount i nb v] j c u)
      else if commit_fails env c
      then (Raise (AppError ERROR_DATABASE Failed_to_update_account_balance
                     500),
            mkSession d (with_balance t i nb v) [] j (S c) u)
      else (Ret (set_balance a nb v),
            mkSession (with_balance t i nb v) (with_balance t i nb v) []
              (with_balance t i nb v :: j) (S c) u)
  end.
Proof.
  cbv [AccountRepo.update_account_balance catch bind session_query
       session_stage session_commit session_flush session_refresh
       get_session ret raise dirty txn durable journal n_commits
       n_uuids app exec_all].
  destruct (find_account t i) as [a|] eqn:E; [|reflexivity].
  cbv [exec_stmt]. rewrite E. cbv [is_some negb].
  destruct (nb <? 0); [reflexivity|].
  destruct (commit_fails env c); [reflexivity|].
  fold (with_balance t i nb (AccountDB.version a + 1)).
  rewrite (find_account_with_balance_same _ _ _ _ _ E).
  reflexivity.
Qed.

Lemma update_transfer_status_eq env d t j c u i st :
  TransferRepo.update_transfer_status i st env (mkSession d t [] j c u) =
  match find_transfer t i with
  | None =>
      (Raise (AppError ERROR_NOT_FOUND Transfer_not_found 404),
       mkSession d t [] j c u)
  | Some x =>
      if commit_fails env c
      then (Raise (AppError ERROR_DATABASE Failed_to_update_transfer_status
                     500),
            mkSession d d [] j (S c) u)
      else (Ret (TransferDB.set_status x st),
            mkSession (with_status t i st) (with_status t i st) []
              (with_status t i st :: j) (S c) u)
  end.
Proof.
  cbv [TransferRepo.update_transfer_status TransferRepo.get_transfer catch
       bind session_query session_stage session_commit session_flush
       session_refresh session_rollback get_session ret raise dirty txn
       durable journal n_commits n_uuids app exec_all].
  destruct (find_transfer t i) as [x|] eqn:E; [|reflexivity].
  assert (Hid : TransferDB.id x = i).
  { unfold find_transfer in E. apply find_some in E. destruct E as [_ E].
    now apply N.eqb_eq in E. }
  cbv [exec_stmt]. rewrite Hid, E. cbv [is_some negb].
  destruct (commit_fails env c); [reflexivity|].
  fold (with_status t i st).
  rewrite (find_transfer_with_status_same _ _ _ _ E). reflexivity.
Qed.

Lemma find_transfer_id db i x :
  find_transfer db i = Some x -> TransferDB.id x = i.
Proof.
  unfold find_transfer. intros H. apply find_some in H. destruct H as [_ H].
  now apply N.eqb_eq in H.
Qed.


Lemma find_transfer_with_balance_new db x i b v :
  find_transfer db (TransferDB.id x) = None ->
  find_transfer (with_balance (with_transfer db x) i b v) (TransferDB.id x)
  = Some x.
Proof. intros H. now apply find_transfer_with_transfer_new. Qed.

Lemma create_transfer_closed r env db j c u :
  observe (TransferService.create_transfer r env (mkSession db db [] j c u))
  = transfer_outcome r env db j c u.
Proof.
  cbv [TransferService.create_transfer TransferService._validate_transfer_request
       TransferService.transfer_block TransferService._validate_account_status
       TransferRepo.transaction transfer_outcome is_initial_deposit_request
       is_active InvalidAmount SameAccount AccountNotActive InsufficientFunds
       bind catch ret raise get_uuid n_uuids durable txn dirty journal n_commits].
  destruct (CreateTransferRequest.amount r <=? 0) eqn:Ea; [reflexivity|].
  destruct (N.eqb (CreateTransferRequest.source_account_id r)
              (CreateTransferRequest.destination_account_id r)) eqn:Esd;
  destruct (TransferType_eqb (CreateTransferRequest.transfer_type r)
              INITIAL_DEPOSIT) eqn:Ety;
  cbv [negb andb]; try reflexivity;
  rewrite get_transfer_by_idempotency_key_eq;
  (destruct (find_transfer_by_key db (CreateTransferRequest.idempotency_key r))
    as [y|] eqn:Ek; [reflexivity|]);
  rewrite get_account_eq;
  (destruct (find_account db (CreateTransferRequest.source_account_id r))
    as [sa|] eqn:Esa; [|reflexivity]);
  rewrite get_account_eq;
  (destruct (find_account db (CreateTransferRequest.destination_account_id r))
    as [da|] eqn:Eda; [|reflexivity]);
  (destruct (AccountStatus_eqb (AccountDB.status sa) ACTIVE); [|reflexivity]);
  (destruct (AccountStatus_eqb (AccountDB.status da) ACTIVE); [|reflexivity]);
  (destruct (AccountDB.current_balance sa <? CreateTransferRequest.amount r)
     eqn:Ef);
  cbv [negb andb]; try reflexivity;
  cbv beta iota;
  fold (pending_row r (uuid_source env u));
  set (x := pending_row r (uuid_source env u));
  assert (Hx : TransferDB.id x = uuid_source env u) by reflexivity;
  assert (Hk : TransferDB.idempotency_key x
               = CreateTransferRequest.idempotency_key r) by reflexivity;
  clearbody x;
  rewrite create_transfer_eq;
  rewrite Hx, Hk, Ek;
  (destruct (find_transfer db (uuid_source env u)) eqn:Et;
   cbv [is_some orb]; [reflexivity|]);
  (destruct (commit_fails env c); [reflexivity|]);
  rewrite <- Hx in Et;
  pose proof (find_account_id _ _ _ Esa) as Hsid;
  pose proof (find_account_id _ _ _ Eda) as Hdid;
  rewrite ?Hsid, ?Hdid;
  rewrite update_account_balance_eq;
  rewrite ?find_account_with_transfer, ?Esa, ?Eda;
  cbv zeta.
  5: { apply Z.ltb_ge in Ef.
       destruct (Z.ltb_spec (AccountDB.current_balance sa
                             - CreateTransferRequest.amount r) 0); [lia|].
       destruct (commit_fails env (S c)); [reflexivity|].
       rewrite update_account_balance_eq.
       rewrite find_account_with_balance_other
         by (now apply N.eqb_neq in Esd).
       rewrite find_account_with_transfer, Eda. cbv zeta.
       destruct (AccountDB.current_balance da + CreateTransferRequest.amount r
                 <? 0); [reflexivity|].
       destruct (commit_fails env (S (S c))); [reflexivity|].
       rewrite update_transfer_status_eq.
       rewrite find_transfer_with_balance.
       rewrite (find_transfer_with_balance_new _ _ _ _ _ Et).
       destruct (commit_fails env (S (S (S c)))); [reflexivity|].
       cbv [session_commit bind session_flush dirty txn exec_all durable
            journal n_commits n_uuids].
       rewrite Hx.
       destruct (commit_fails env (S (S (S (S c))))); reflexivity. }
  all: destruct (AccountDB.current_balance da + CreateTransferRequest.amount r
                 <? 0); [reflexivity|];
       (destruct (commit_fails env (S c)); [reflexivity|]);
       rewrite update_transfer_status_eq;
       rewrite find_transfer_with_balance;
       rewrite (find_transfer_with_transfer_new _ _ Et);
       (destruct (commit_fails env (S (S c))); [reflexivity|]);
       cbv [session_commit bind session_flush dirty txn exec_all durable
            journal n_commits n_uuids];
       rewrite Hx;
       destruct (commit_fails env (S (S (S c)))); reflexivity.
Qed.
Lemma find_account_with_account_new db a :
  find_account db (AccountDB.id a) = None ->
  find_account (with_account db a) (AccountDB.id a) = Some a.
Proof.
  intros H. unfold find_account, with_account. cbn [accounts].
  unfold find_account in H. rewrite (find_app_none _ _ _ H).
  now rewrite N.eqb_refl.
Qed.

Lemma create_account_eq env d t j c u a :
  AccountRepo.create_account a env (mkSession d t [] j c u) =
  if is_some (find_account t (AccountDB.id a))
     || is_some (find_account_by_number t (AccountDB.account_number a))
  then (Raise (AppError ERROR_UNIQUE_CONSTRAINT Database_detail 400),
        mkSession d t [InsertAccount a] j c u)
  else if AccountDB.current_balance a <? 0
  then (Raise (DBAPIError CheckViolation),
        mkSession d t [InsertAccount a] j c u)
  else if commit_fails env c
  then (Raise (DBAPIError ConnectionFailure),
        mkSession d (with_account t a) [] j (S c) u)
  else (Ret a, mkSession (with_account t a) (with_account t a) []
                 (with_account t a :: j) (S c) u).
Proof.
  cbv [AccountRepo.create_account catch bind session_stage session_commit
       session_flush session_refresh get_session ret raise
       dirty txn durable journal n_commits n_uuids app exec_all].
  cbv [exec_stmt].
  destruct (find_account t (AccountDB.id a)) eqn:E1; cbv [is_some orb];
    [reflexivity|].
  destruct (find_account_by_number t (AccountDB.account_number a));
    [reflexivity|].
  destruct (AccountDB.current_balance a <? 0); [reflexivity|].
  destruct (commit_fails env c); [reflexivity|].
  fold (with_account t a).
  rewrite (find_account_with_account_new _ _ E1). reflexivity.
Qed.

Lemma generate_unique_account_number_eq env d t l j c u :
  generate_unique_account_number env (mkSession d t l j c u) =
  (Ret (new_account_number env u), mkSession d t l j c (S u)).
Proof. reflexivity. Qed.

Lemma create_account_closed r env db j c u :
  observe (AccountService.create_account r env (mkSession db db [] j c u))
  = account_outcome r env db j c u.
Proof.
  cbv [AccountService.create_account account_outcome NegativeDeposit
       bind catch ret raise].
  destruct (CreateAccountRequest.initial_deposit r <? 0); [reflexivity|].
  rewrite get_customer_eq.
  destruct (find_customer db (CreateAccountRequest.customer_id r));
    [|reflexivity].
  rewrite generate_unique_account_number_eq.
  cbv [get_uuid n_uuids durable txn dirty journal n_commits].
  fold (new_account r env u).
  set (a := new_account r env u).
  assert (Ha : AccountDB.id a = uuid_source env (S u)) by reflexivity.
  assert (Hb : AccountDB.current_balance a = 0) by reflexivity.
  assert (Hv : AccountDB.version a = 1) by reflexivity.
  clearbody a.
  rewrite create_account_eq.
  destruct (find_account db (AccountDB.id a)) eqn:Efa;
    cbv [is_some orb]; [reflexivity|].
  destruct (find_account_by_number db (AccountDB.account_number a));
    [reflexivity|].
  rewrite Hb. cbn [Z.ltb Z.compare].
  destruct (commit_fails env c); [reflexivity|].
  destruct (CreateAccountRequest.initial_deposit r >? 0) eqn:Edep;
    [|reflexivity].
  rewrite Ha. fold (deposit_row r env u).
  set (x := deposit_row r env u).
  assert (Hx : TransferDB.id x = uuid_source env (S (S u))) by reflexivity.
  clearbody x.
  rewrite create_transfer_eq.
  change (find_transfer (with_account db a)) with (find_transfer db).
  change (find_transfer_by_key (with_account db a))
    with (find_transfer_by_key db).
  destruct (find_transfer db (TransferDB.id x));
    cbv [is_some orb]; [reflexivity|].
  destruct (find_transfer_by_key db (TransferDB.idempotency_key x));
    [reflexivity|].
  destruct (commit_fails env (S c)); [reflexivity|].
  rewrite update_account_balance_eq.
  rewrite find_account_with_transfer.
  rewrite <- Ha.
  rewrite (find_account_with_account_new _ _ Efa).
  cbv zeta. rewrite Hb, Hv. cbn [Z.add Pos.add].
  apply Z.gtb_lt in Edep.
  destruct (Z.ltb_spec (CreateAccountRequest.initial_deposit r) 0); [lia|].
  destruct (commit_fails env (S (S c))); reflexivity.
Qed.


Lemma get_transfer_observed i env db j c u :
  observe (TransferService.get_transfer i env (mkSession db db [] j c u))
  = (match find_transfer db i with
     | Some x => Ret (TransferDetailsResponse.model_validate x)
     | None => Raise (HTTPException 500 Failed_to_get_transfer)
     end, db, j).
Proof.
  cbv [TransferService.get_transfer TransferRepo.get_transfer catch bind ret
       raise session_query session_flush get_session dirty txn exec_all].
  destruct (find_transfer db i); reflexivity.
Qed.

(** ** From sessions to [run] *)

Lemma run_observe {A} (m : M A) env db :
  run m env db =
  (fst (fst (observe (m env (open_session db)))),
   snd (fst (observe (m env (open_session db))))).
Proof. unfold run, observe. destruct (m env (open_session db)); reflexivity. Qed.

Lemma run_create_transfer r env db :
  run (TransferService.create_transfer r) env db =
  (fst (fst (transfer_outcome r env db [] 0 0)),
   snd (fst (transfer_outcome r env db [] 0 0))).
Proof.
  rewrite run_observe. unfold open_session.
  now rewrite create_transfer_closed.
Qed.

Lemma run_create_account r env db :
  run (AccountService.create_account r) env db =
  (fst (fst (account_outcome r env db [] 0 0)),
   snd (fst (account_outcome r env db [] 0 0))).
Proof.
  rewrite run_observe. unfold open_session.
  now rewrite create_account_closed.
Qed.



Lemma TransferType_eqb_eq a b : TransferType_eqb a b = true <-> a = b.
Proof. destruct a, b; simpl; split; congruence. Qed.

Lemma AccountStatus_eqb_eq a b : AccountStatus_eqb a b = true <-> a = b.
Proof. destruct a, b; simpl; split; congruence. Qed.

Lemma passes_validation_checks r :
  passes_validation r ->
  (CreateTransferRequest.amount r <=? 0) = false /\
  N.eqb (CreateTransferRequest.source_account_id r)
        (CreateTransferRequest.destination_account_id r)
  && negb (is_initial_deposit_request r) = false.
Proof.
  intros [Hpos Hsd]. split; [now apply Z.leb_gt|].
  unfold is_initial_deposit_request.
  destruct Hsd as [Hne | Hty].
  - apply N.eqb_neq in Hne. now rewrite Hne.
  - rewrite Hty. simpl. apply andb_false_r.
Qed.

(** The short circuit of step 2. *)
Lemma existing_key_short_circuits r env db j c u x :
  passes_validation r ->
  find_transfer_by_key db (CreateTransferRequest.idempotency_key r) = Some x ->
  transfer_outcome r env db j c u =
  (Ret (TransferDetailsResponse.model_validate x), db, j).
Proof.
  intros Hv Hk. destruct (passes_validation_checks r Hv) as [Ha Hs].
  unfold transfer_outcome. now rewrite Ha, Hs, Hk.
Qed.

(** Whatever the request, an existing key means no write. *)
Lemma existing_key_no_write r env db j c u x :
  find_transfer_by_key db (CreateTransferRequest.idempotency_key r) = Some x ->
  snd (fst (transfer_outcome r env db j c u)) = db /\
  snd (transfer_outcome r env db j c u) = j.
Proof.
  intros Hk. unfold transfer_outcome. rewrite Hk.
  destruct (CreateTransferRequest.amount r <=? 0); [now split|].
  destruct (_ && _); now split.
Qed.

Lemma find_map_preserving {A} (p : A -> bool) (g : A -> A) l :
  (forall y, p (g y) = p y) ->
  find p (map g l) = option_map g (find p l).
Proof.
  intros Hp. induction l as [|y l IH]; simpl; [reflexivity|].
  rewrite Hp. destruct (p y); [reflexivity|exact IH].
Qed.

Lemma find_transfer_by_key_with_status db i s k :
  find_transfer_by_key (with_status db i s) k =
  option_map (fun y => if N.eqb (TransferDB.id y) i
                       then TransferDB.set_status y s else y)
    (find_transfer_by_key db k).
Proof.
  unfold find_transfer_by_key, with_status, put_status. cbn [transfers].
  apply find_map_preserving. intros y.
  destruct (N.eqb (TransferDB.id y) i); reflexivity.
Qed.

Lemma find_transfer_by_key_with_transfer_new db x :
  find_transfer_by_key db (TransferDB.idempotency_key x) = None ->
  find_transfer_by_key (with_transfer db x) (TransferDB.idempotency_key x)
  = Some x.
Proof.
  intros H. unfold find_transfer_by_key, with_transfer. cbn [transfers].
  unfold find_transfer_by_key in H. rewrite (find_app_none _ _ _ H).
  now rewrite N.eqb_refl.
Qed.

Ltac split_outcome :=
  repeat match goal with
    | |- context [match ?o with Some _ => _ | None => _ end] =>
        destruct o eqn:?
    | |- context [if ?c then _ else _] => destruct c eqn:?
    end.

(** After a successful call the request's key finds a transfer whose
    representation is the response. *)
Lemma success_leaves_key r env db j c u resp db1 j1 :
  transfer_outcome r env db j c u = (Ret resp, db1, j1) ->
  passes_validation r /\
  exists x,
    find_transfer_by_key db1 (CreateTransferRequest.idempotency_key r)
    = Some x /\
    TransferDetailsResponse.model_validate x = resp.
Proof.
  unfold transfer_outcome.
  destruct (CreateTransferRequest.amount r <=? 0) eqn:Ea; [discriminate|].
  destruct (N.eqb _ _ && negb _) eqn:Es; [discriminate|].
  assert (Hv : passes_validation r).
  { split; [now apply Z.leb_gt|].
    apply andb_false_iff in Es. destruct Es as [Es|Es].
    - left. now apply N.eqb_neq.
    - right. apply negb_false_iff in Es.
      now apply TransferType_eqb_eq in Es. }
  destruct (find_transfer_by_key db _) as [x|] eqn:Ek.
  { intros [= <- <- <-]. split; [exact Hv|]. now exists x. }
  set (x := pending_row r (uuid_source env u)).
  destruct (find_account db (CreateTransferRequest.source_account_id r));
    [|discriminate].
  destruct (find_account db (CreateTransferRequest.destination_account_id r));
    [|discriminate].
  split_outcome; try discriminate;
  intros [= <- <- <-]; (split; [exact Hv|]);
  exists (TransferDB.set_status x COMPLETED); (split; [|reflexivity]);
  rewrite find_transfer_by_key_with_status;
  change (find_transfer_by_key (with_balance ?d ?i ?b ?v))
    with (find_transfer_by_key d);
  try change (find_transfer_by_key (with_balance ?d ?i ?b ?v))
    with (find_transfer_by_key d);
  change (CreateTransferRequest.idempotency_key r)
    with (TransferDB.idempotency_key x);
  (rewrite find_transfer_by_key_with_transfer_new by exact Ek);
  cbn [option_map]; change (TransferDB.id x) with (uuid_source env u);
  now rewrite N.eqb_refl.
Qed.

(** ** The path on which nothing is refused *)

Lemma is_initial_deposit_request_false r :
  CreateTransferRequest.transfer_type r <> INITIAL_DEPOSIT ->
  is_initial_deposit_request r = false.
Proof.
  unfold is_initial_deposit_request.
  destruct (CreateTransferRequest.transfer_type r); simpl; congruence.
Qed.


Lemma find_account_with_status db i s k :
  find_account (with_status db i s) k = find_account db k.
Proof. reflexivity. Qed.


(** ** Every durable state of an operation comes from accepted writes *)


Lemma is_some_false {A} (o : option A) : is_some o = false -> o = None.
Proof. destruct o; [discriminate|reflexivity]. Qed.



Ltac bool_facts :=
  repeat match goal with
    | H : (_ || _) = false |- _ =>
        apply orb_false_elim in H; destruct H
    | H : (_ && true) = false |- _ => rewrite andb_true_r in H
    | H : (_ <? _) = false |- _ => apply Z.ltb_ge in H
    | H : (_ <? _) = true |- _ => apply Z.ltb_lt in H
    | H : (_ >? _) = true |- _ => apply Z.gtb_lt in H
    | H : (_ <=? _) = false |- _ => apply Z.leb_gt in H
    end.








Lemma find_put_status_other l i j s :
  i <> j ->
  find (fun y => N.eqb (TransferDB.id y) j) (put_status i s l)
  = find (fun y => N.eqb (TransferDB.id y) j) l.
Proof.
  intros Hij. induction l as [|y l IH]; simpl; [reflexivity|].
  destruct (N.eqb (TransferDB.id y) i) eqn:E; simpl.
  - apply N.eqb_eq in E.
    destruct (N.eqb (TransferDB.id y) j) eqn:E'.
    + apply N.eqb_eq in E'. congruence.
    + exact IH.
  - destruct (N.eqb (TransferDB.id y) j); [reflexivity|exact IH].
Qed.






(** ** Transfer status along a history *)

Lemma status_of_with_transfer_new db x :
  find_transfer db (TransferDB.id x) = None ->
  status_of (with_transfer db x) (TransferDB.id x) = Some (TransferDB.status x).
Proof.
  intros H. unfold status_of.
  now rewrite (find_transfer_with_transfer_new _ _ H).
Qed.

Lemma status_of_with_status_same db i s st :
  status_of db i = Some st -> status_of (with_status db i s) i = Some s.
Proof.
  unfold status_of. destruct (find_transfer db i) as [x|] eqn:E;
    [|discriminate].
  intros _. now rewrite (find_transfer_with_status_same _ _ _ _ E).
Qed.


(* ------------------------------------------------------------------ *)
(** * The transfer workflow and account creation: properties *)

(** ** Atomicity of the transactional block *)

(** C1: evaluation of [create_transfer] at the seed data when the
    database refuses the COMMIT of the destination credit (the third
    COMMIT of the call).  The call fails with a 500, yet account 1 stays
    debited (balance 800, version 2), account 2 is untouched and the
    transfer row stays durable in PENDING status: every repository
    operation has committed on its own, so the ROLLBACK of
    [TransferRepo.transaction] undoes nothing. *)
Lemma credit_failure_keeps_debit_and_pending_row :
  let db' := snd (run (TransferService.create_transfer transfer_200)
                    (env_failing_commit 2) seed_database) in
  fst (run (TransferService.create_transfer transfer_200)
         (env_failing_commit 2) seed_database)
  = Raise (HTTPException 500 Failed_to_update_account_balance)
  /\ balance_of seed_database ACCOUNT_ID_1 = Some 1000
  /\ version_of seed_database ACCOUNT_ID_1 = Some 1
  /\ balance_of db' ACCOUNT_ID_1 = Some 800
  /\ version_of db' ACCOUNT_ID_1 = Some 2
  /\ balance_of db' ACCOUNT_ID_2 = Some 500
  /\ version_of db' ACCOUNT_ID_2 = Some 1
  /\ status_of seed_database 0xc0%N = None
  /\ status_of db' 0xc0%N = Some PENDING.
Proof. vm_compute. repeat split. Qed.

(** ** Idempotency *)

(** C2, as stated, fails: a transfer with the request's key exists in
    the seed data, and a request under that key with amount 0 is
    rejected with InvalidAmount instead of getting that transfer back. *)
Lemma replay_with_invalid_amount_is_rejected :
  find_transfer_by_key seed_database
    (CreateTransferRequest.idempotency_key replay_with_amount_0)
  = Some (TransferDB.mk TRANSFER_ID_1 ACCOUNT_ID_1 ACCOUNT_ID_2 100 KEY_1
            "Initial test transfer" STANDARD COMPLETED false)
  /\ run (TransferService.create_transfer replay_with_amount_0) env_ok
       seed_database
     = (Raise InvalidAmount, seed_database).
Proof. split; vm_compute; reflexivity. Qed.

(** C2, amended: whenever a transfer with the request's idempotency key
    exists, a request that passes validation gets that transfer's
    representation as it is, whatever its status, and the database is
    left as it was; with or without validation nothing is written.  So a
    request that [create_transfer] has answered with a transfer gets the
    same answer when submitted again, in any environment, and the
    second call changes nothing. *)
Theorem create_transfer_idempotent env db r :
  (forall x,
      passes_validation r ->
      find_transfer_by_key db (CreateTransferRequest.idempotency_key r)
      = Some x ->
      run (TransferService.create_transfer r) env db
      = (Ret (TransferDetailsResponse.model_validate x), db))
  /\ (forall x,
      find_transfer_by_key db (CreateTransferRequest.idempotency_key r)
      = Some x ->
      snd (run (TransferService.create_transfer r) env db) = db)
  /\ (forall resp db1,
      run (TransferService.create_transfer r) env db = (Ret resp, db1) ->
      forall env',
        run (TransferService.create_transfer r) env' db1 = (Ret resp, db1)).
Proof.
  split; [|split].
  - intros x Hv Hk. rewrite run_create_transfer.
    now rewrite (existing_key_short_circuits r env db [] 0%nat 0%nat x Hv Hk).
  - intros x Hk. rewrite run_create_transfer. cbn [snd].
    apply (existing_key_no_write r env db [] 0%nat 0%nat x Hk).
  - intros resp db1 Hrun env'. rewrite run_create_transfer in Hrun.
    destruct (transfer_outcome r env db [] 0 0) as [[o d] j] eqn:E.
    cbn [fst snd] in Hrun. injection Hrun as -> ->.
    destruct (success_leaves_key _ _ _ _ _ _ _ _ _ E) as (Hv & x & Hk & Hx).
    rewrite run_create_transfer.
    rewrite (existing_key_short_circuits r env' db1 [] 0%nat 0%nat x Hv Hk).
    cbn [fst snd]. now rewrite Hx.
Qed.

(** The transfer of 200 submitted twice, and a replay of the seed
    transfer under its key. *)
Lemma create_transfer_idempotent_witness :
  run (TransferService.create_transfer transfer_200) env_ok seed_database
  = transfer_200_done
  /\ run (TransferService.create_transfer transfer_200) env_ok
       (snd transfer_200_done)
     = transfer_200_done
  /\ run (TransferService.create_transfer replay_of_transfer_1) env_ok
       seed_database
     = (Ret (TransferDetailsResponse.mk TRANSFER_ID_1 ACCOUNT_ID_1
               ACCOUNT_ID_2 100 COMPLETED "Initial test transfer" STANDARD),
        seed_database).
Proof.
  split; [vm_compute; reflexivity|]. split.
  - unfold transfer_200_done. cbn [snd].
    apply (proj2 (proj2 (create_transfer_idempotent env_ok seed_database
                           transfer_200))).
    vm_compute. reflexivity.
  - apply (proj1 (create_transfer_idempotent env_ok seed_database
                    replay_of_transfer_1)
             (TransferDB.mk TRANSFER_ID_1 ACCOUNT_ID_1 ACCOUNT_ID_2 100 KEY_1
                "Initial test transfer" STANDARD COMPLETED false)).
    + split; [simpl; lia|left; discriminate].
    + vm_compute. reflexivity.
Defined.

(** ** A completed transfer moves the amount *)


(** The sum of the two balances is not kept by the code's arithmetic: a
    STANDARD transfer of 0.1 from an account holding 0.3 to an account
    holding 0.7 writes 0.3 - 0.1 = 0.19999999999999998 and 0.7 + 0.1 =
    0.7999999999999999, which add up to 0.9999999999999999, while the
    old sum is 1. *)
Lemma standard_transfer_sum_is_rounded :
  PrimFloat.leb 0.1 0.3 = true
  /\ Float64.balances_after STANDARD 0.3 0.7 0.1
     = (0.19999999999999998, 0.7999999999999999)%float
  /\ (0.19999999999999998 + 0.7999999999999999)%float
     = 0.9999999999999999%float
  /\ (0.3 + 0.7)%float = 1%float
  /\ PrimFloat.eqb 0.9999999999999999 1 = false.
Proof. repeat split; vm_compute; reflexivity. Qed.



(** ** The life of a transfer row *)




(** ** The funds check *)

(** C5, as stated, fails: the STANDARD request of 500 from account 3
    (balance 250) to the inactive account 4 has a source balance below
    the amount and fails with AccountNotActive, not InsufficientFunds. *)
Lemma low_balance_and_inactive_destination :
  CreateTransferRequest.transfer_type transfer_500_to_inactive
  <> INITIAL_DEPOSIT
  /\ balance_of seed_database
       (CreateTransferRequest.source_account_id transfer_500_to_inactive)
     = Some 250
  /\ 250 < CreateTransferRequest.amount transfer_500_to_inactive
  /\ run (TransferService.create_transfer transfer_500_to_inactive) env_ok
       seed_database
     = (Raise (AccountNotActive ACCOUNT_ID_4), seed_database).
Proof.
  split; [discriminate|]. split; [vm_compute; reflexivity|].
  split; [reflexivity|]. vm_compute. reflexivity.
Qed.

(** C5, amended: for every request whose type is not INITIAL_DEPOSIT,
    if [create_transfer] fails with InsufficientFunds then the error
    carries the source balance and the requested amount, the balance is
    strictly below the amount and the database is left as it was; and
    for a request that passes validation, has a fresh idempotency key
    and whose source and destination exist and are ACTIVE,
    [create_transfer] fails with InsufficientFunds, leaving the database
    as it was, exactly when the source balance is strictly below the
    amount. *)
Theorem insufficient_funds_exactly_when_short env db r :
  CreateTransferRequest.transfer_type r <> INITIAL_DEPOSIT ->
  (forall available requested db',
      run (TransferService.create_transfer r) env db
      = (Raise (InsufficientFunds available requested), db') ->
      balance_of db (CreateTransferRequest.source_account_id r)
      = Some available
      /\ requested = CreateTransferRequest.amount r
      /\ available < requested
      /\ db' = db)
  /\ (forall sa da,
      passes_validation r ->
      find_transfer_by_key db (CreateTransferRequest.idempotency_key r)
      = None ->
      find_account db (CreateTransferRequest.source_account_id r) = Some sa ->
      find_account db (CreateTransferRequest.destination_account_id r)
      = Some da ->
      AccountDB.status sa = ACTIVE ->
      AccountDB.status da = ACTIVE ->
      (AccountDB.current_balance sa < CreateTransferRequest.amount r <->
       run (TransferService.create_transfer r) env db
       = (Raise (InsufficientFunds (AccountDB.current_balance sa)
                   (CreateTransferRequest.amount r)), db))).
Proof.
  intros Hty. apply is_initial_deposit_request_false in Hty.
  rewrite run_create_transfer. unfold transfer_outcome. rewrite Hty.
  cbn [negb]. split.
  - intros available requested db'.
    destruct (CreateTransferRequest.amount r <=? 0); [discriminate|].
    destruct (N.eqb _ _ && true); [discriminate|].
    destruct (find_transfer_by_key db _); [discriminate|].
    unfold balance_of.
    destruct (find_account db (CreateTransferRequest.source_account_id r))
      as [sa|]; [|discriminate].
    destruct (find_account db (CreateTransferRequest.destination_account_id r))
      as [da|]; [|discriminate].
    destruct (negb (is_active sa)); [discriminate|].
    destruct (negb (is_active da)); [discriminate|].
    destruct (AccountDB.current_balance sa <? CreateTransferRequest.amount r)
      eqn:Ef; cbn [andb].
    + cbn [fst snd]. intros [= <- <- <-]. apply Z.ltb_lt in Ef.
      repeat split; trivial.
    + split_outcome; discriminate.
  - intros sa da Hv Hk Hsa Hda Hsact Hdact.
    destruct (passes_validation_checks r Hv) as [Ha Hs].
    rewrite Hty in Hs. cbn [negb] in Hs.
    rewrite Ha, Hs, Hk, Hsa, Hda. unfold is_active.
    rewrite Hsact, Hdact. cbn [AccountStatus_eqb negb].
    destruct (Z.ltb_spec (AccountDB.current_balance sa)
                (CreateTransferRequest.amount r)) as [Hlt|Hge];
      cbn [andb].
    + split; [reflexivity|trivial].
    + split; [lia|]. split_outcome; discriminate.
Qed.

(** The scenario of the specification: 500 from the account with
    balance 250. *)
Lemma insufficient_funds_exactly_when_short_witness :
  run (TransferService.create_transfer transfer_500_from_account_3) env_ok
    seed_database
  = (Raise (InsufficientFunds 250 500), seed_database).
Proof.
  refine (proj1 (proj2 (insufficient_funds_exactly_when_short env_ok
                 seed_database transfer_500_from_account_3 _)
               (AccountDB.mk ACCOUNT_ID_3 CUSTOMER_ID_1 "DE-2025-EEEE-FFFF"
                  250 1 ACTIVE)
               (AccountDB.mk ACCOUNT_ID_2 CUSTOMER_ID_2 "DE-2025-CCCC-DDDD"
                  500 1 ACTIVE) _ _ _ _ _ _) _).
  - discriminate.
  - split; [simpl; lia|left; discriminate].
  - vm_compute. reflexivity.
  - vm_compute. reflexivity.
  - vm_compute. reflexivity.
  - reflexivity.
  - reflexivity.
  - simpl. lia.
Defined.

(** ** Request validation *)

(** C6, as stated, fails: a STANDARD request from account 1 to itself
    with amount 0 fails with InvalidAmount, not SameAccount. *)
Lemma self_transfer_with_amount_0_is_invalid_amount :
  CreateTransferRequest.source_account_id self_transfer_amount_0
  = CreateTransferRequest.destination_account_id self_transfer_amount_0
  /\ CreateTransferRequest.transfer_type self_transfer_amount_0 = STANDARD
  /\ run (TransferService.create_transfer self_transfer_amount_0) env_ok
       seed_database
     = (Raise InvalidAmount, seed_database)
  /\ InvalidAmount <> SameAccount.
Proof.
  split; [reflexivity|]. split; [reflexivity|].
  split; [vm_compute; reflexivity|discriminate].
Qed.

(** C6, amended: [create_transfer] validates the request before it
    touches any state: every request with amount <= 0 fails with
    InvalidAmount and the database is left as it was; every request
    with amount > 0, source equal to destination and type STANDARD
    fails with SameAccount and the database is left as it was; and a
    request with source equal to destination gets a transfer back only
    when its type is INITIAL_DEPOSIT. *)
Theorem create_transfer_validates_first env db r :
  (CreateTransferRequest.amount r <= 0 ->
   run (TransferService.create_transfer r) env db = (Raise InvalidAmount, db))
  /\ (0 < CreateTransferRequest.amount r ->
      CreateTransferRequest.source_account_id r
      = CreateTransferRequest.destination_account_id r ->
      CreateTransferRequest.transfer_type r = STANDARD ->
      run (TransferService.create_transfer r) env db
      = (Raise SameAccount, db))
  /\ (CreateTransferRequest.source_account_id r
      = CreateTransferRequest.destination_account_id r ->
      forall resp db',
        run (TransferService.create_transfer r) env db = (Ret resp, db') ->
        CreateTransferRequest.transfer_type r = INITIAL_DEPOSIT).
Proof.
  rewrite run_create_transfer. unfold transfer_outcome.
  split; [|split].
  - intros H. apply Z.leb_le in H. now rewrite H.
  - intros Hpos Hsd Hty. apply Z.leb_gt in Hpos. rewrite Hpos.
    rewrite Hsd, N.eqb_refl. unfold is_initial_deposit_request.
    now rewrite Hty.
  - intros Hsd resp db'.
    destruct (CreateTransferRequest.amount r <=? 0); [discriminate|].
    rewrite Hsd, N.eqb_refl. unfold is_initial_deposit_request.
    destruct (CreateTransferRequest.transfer_type r); [reflexivity|].
    discriminate.
Qed.

(** Account 1 to itself: amount 0, amount 50, and the accepted
    INITIAL_DEPOSIT of 50. *)
Lemma create_transfer_validates_first_witness :
  run (TransferService.create_transfer self_transfer_amount_0) env_ok
    seed_database = (Raise InvalidAmount, seed_database)
  /\ run (TransferService.create_transfer self_transfer_50) env_ok
       seed_database = (Raise SameAccount, seed_database)
  /\ (run (TransferService.create_transfer self_deposit_50) env_ok
        seed_database = self_deposit_50_done
      /\ CreateTransferRequest.transfer_type self_deposit_50
         = INITIAL_DEPOSIT).
Proof.
  split; [|split].
  - apply (proj1 (create_transfer_validates_first env_ok seed_database
                    self_transfer_amount_0)).
    simpl. lia.
  - apply (proj1 (proj2 (create_transfer_validates_first env_ok seed_database
                           self_transfer_50))).
    + simpl. lia.
    + reflexivity.
    + reflexivity.
  - assert (H : run (TransferService.create_transfer self_deposit_50) env_ok
                  seed_database = self_deposit_50_done)
      by (vm_compute; reflexivity).
    split; [exact H|].
    unfold self_deposit_50_done in H.
    exact (proj2 (proj2 (create_transfer_validates_first env_ok seed_database
                           self_deposit_50)) eq_refl _ _ H).
Defined.

(** ** Balances and versions *)



(** ** Account creation *)

(** C8: [create_account] with a negative deposit fails with
    NegativeDeposit, whether the customer exists or not, and writes
    nothing; with a deposit >= 0 and an unknown customer it fails with
    CustomerNotFound and writes nothing; for a known customer (the
    database refusing no COMMIT, the drawn ids and account number being
    unused) a deposit of 0 adds one account with balance 0, version 1,
    status ACTIVE and no transfer row, and a deposit D > 0 adds the
    account and one transfer of type INITIAL_DEPOSIT and amount D from
    the account to itself, and leaves the account with balance D. *)
Theorem create_account_cases env db r :
  let D := CreateAccountRequest.initial_deposit r in
  let cid := CreateAccountRequest.customer_id r in
  (D < 0 ->
   run (AccountService.create_account r) env db = (Raise NegativeDeposit, db))
  /\ (0 <= D -> find_customer db cid = None ->
      run (AccountService.create_account r) env db
      = (Raise CustomerNotFound, db))
  /\ (forall cu,
      find_customer db cid = Some cu ->
      never_fails env ->
      find_account db (uuid_source env 1) = None ->
      find_account_by_number db (new_account_number env 0) = None ->
      let a := AccountDB.mk (uuid_source env 1) cid
                 (new_account_number env 0) 0 1 ACTIVE in
      (D = 0 ->
       run (AccountService.create_account r) env db
       = (Ret (AccountDetailsResponse.model_validate a), with_account db a)
       /\ find_account (with_account db a) (uuid_source env 1) = Some a
       /\ transfers (with_account db a) = transfers db)
      /\ (0 < D ->
          find_transfer db (uuid_source env 2) = None ->
          find_transfer_by_key db (uuid_source env 3) = None ->
          let x := TransferDB.mk (uuid_source env 2)
                     (uuid_source env 1) (uuid_source env 1) D
                     (uuid_source env 3) "Initial deposit"
                     INITIAL_DEPOSIT COMPLETED true in
          exists db',
            run (AccountService.create_account r) env db
            = (Ret (AccountDetailsResponse.model_validate a), db')
            /\ find_account db' (uuid_source env 1)
               = Some (AccountDB.mk (uuid_source env 1) cid
                         (new_account_number env 0) D 2 ACTIVE)
            /\ transfers db' = transfers db ++ [x]
            /\ customers db' = customers db)).
Proof.
  intros D cid. rewrite run_create_account. unfold account_outcome.
  fold D cid.
  split; [|split].
  - intros H. apply Z.ltb_lt in H. now rewrite H.
  - intros H Hc. apply Z.ltb_ge in H. now rewrite H, Hc.
  - intros cu Hc Hok Hid Hnum.
    set (a := AccountDB.mk (uuid_source env 1) cid
                (new_account_number env 0) 0 1 ACTIVE).
    change (new_account r env 0) with a.
    cbn [a AccountDB.id AccountDB.account_number].
    rewrite Hc, Hid, Hnum, !Hok. cbn [is_some orb].
    split.
    + intros HD. rewrite HD. cbn [Z.ltb Z.gtb Z.compare fst snd].
      split; [reflexivity|]. split; [|reflexivity].
      now apply find_account_with_account_new.
    + intros HD Hx Hkey.
      set (x := TransferDB.mk (uuid_source env 2)
                  (uuid_source env 1) (uuid_source env 1) D
                  (uuid_source env 3) "Initial deposit"
                  INITIAL_DEPOSIT COMPLETED true).
      change (deposit_row r env 0) with x.
      cbn [x TransferDB.id TransferDB.idempotency_key].
      rewrite Hx, Hkey. cbn [is_some orb].
      destruct (Z.ltb_spec D 0); [lia|].
      apply Z.gtb_lt in HD. rewrite HD. cbn [fst snd].
      eexists. split; [reflexivity|].
      split; [|split; reflexivity].
      rewrite (find_account_with_balance_same _ _ _ _ a); [reflexivity|].
      rewrite find_account_with_transfer.
      now apply find_account_with_account_new.
Qed.

(** A negative deposit for an unknown customer, a deposit of 10 for an
    unknown customer, and accounts with deposit 0 and 50 for known
    customers. *)
Lemma create_account_cases_witness :
  run (AccountService.create_account account_with_negative_deposit) env_ok
    seed_database = (Raise NegativeDeposit, seed_database)
  /\ run (AccountService.create_account account_for_unknown_customer) env_ok
       seed_database = (Raise CustomerNotFound, seed_database)
  /\ snd (run (AccountService.create_account account_without_deposit) env_ok
            seed_database)
     = with_account seed_database
         (AccountDB.mk 0xc1%N CUSTOMER_ID_2 "DE-2025-0000-0000" 0 1 ACTIVE)
  /\ (exists db',
        snd (run (AccountService.create_account account_with_deposit_50)
               env_ok seed_database) = db'
        /\ find_account db' 0xc1%N
           = Some (AccountDB.mk 0xc1%N CUSTOMER_ID_1 "DE-2025-0000-0000"
                     50 2 ACTIVE)).
Proof.
  split; [|split; [|split]].
  - apply (proj1 (create_account_cases env_ok seed_database
                    account_with_negative_deposit)).
    simpl. lia.
  - apply (proj1 (proj2 (create_account_cases env_ok seed_database
                           account_for_unknown_customer))).
    + simpl. lia.
    + vm_compute. reflexivity.
  - destruct (proj2 (proj2 (create_account_cases env_ok seed_database
                              account_without_deposit))
                (CustomerDB.mk CUSTOMER_ID_2 "Branden Gibson"))
      as [H _].
    + vm_compute. reflexivity.
    + intros n. reflexivity.
    + vm_compute. reflexivity.
    + vm_compute. reflexivity.
    + destruct (H eq_refl) as [H1 _]. rewrite H1. reflexivity.
  - destruct (proj2 (proj2 (create_account_cases env_ok seed_database
                              account_with_deposit_50))
                (CustomerDB.mk CUSTOMER_ID_1 "Arisha Barron"))
      as [_ H].
    + vm_compute. reflexivity.
    + intros n. reflexivity.
    + vm_compute. reflexivity.
    + vm_compute. reflexivity.
    + destruct H as (db' & H1 & H2 & _).
      * simpl. lia.
      * vm_compute. reflexivity.
      * vm_compute. reflexivity.
      * exists db'. rewrite H1. split; [reflexivity|exact H2].
Defined.

(** ** The default idempotency key *)

(** C9, as stated, fails: the first request without a key gets its
    transfer; the second request without a key, with amount -5, is
    rejected with InvalidAmount and does not get that transfer. *)
Lemma second_call_without_key_can_fail_validation :
  TransferBody.idempotency_key body_without_key_1 = None
  /\ TransferBody.idempotency_key body_without_key_2 = None
  /\ run (TransferService.create_transfer
            (parse_transfer_request MODULE_UUID body_without_key_1))
       env_ok seed_database
     = first_call_without_key
  /\ (exists resp, fst first_call_without_key = Ret resp)
  /\ run (TransferService.create_transfer
            (parse_transfer_request MODULE_UUID body_without_key_2))
       env_ok (snd first_call_without_key)
     = (Raise InvalidAmount, snd first_call_without_key).
Proof.
  split; [reflexivity|]. split; [reflexivity|].
  split; [vm_compute; reflexivity|].
  split; [eexists; reflexivity|].
  vm_compute. reflexivity.
Qed.

(** C9, amended: the default idempotency key of the request model is
    the one value computed when the module is loaded; any two requests
    built without an explicit key carry it; and once a call with the
    first has returned a transfer, a call with the second, whatever its
    source, destination and amount, leaves the database as it is, and
    returns that same transfer whenever it passes validation. *)
Theorem requests_without_key_share_one_key module_uuid b1 b2 :
  TransferBody.idempotency_key b1 = None ->
  TransferBody.idempotency_key b2 = None ->
  let r1 := parse_transfer_request module_uuid b1 in
  let r2 := parse_transfer_request module_uuid b2 in
  CreateTransferRequest.idempotency_key r1 = module_uuid
  /\ CreateTransferRequest.idempotency_key r2
     = CreateTransferRequest.idempotency_key r1
  /\ forall env env' db resp db1,
       run (TransferService.create_transfer r1) env db = (Ret resp, db1) ->
       snd (run (TransferService.create_transfer r2) env' db1) = db1
       /\ (passes_validation r2 ->
           run (TransferService.create_transfer r2) env' db1
           = (Ret resp, db1)).
Proof.
  intros H1 H2 r1 r2.
  assert (K1 : CreateTransferRequest.idempotency_key r1 = module_uuid)
    by (unfold r1, parse_transfer_request; cbn; now rewrite H1).
  assert (K2 : CreateTransferRequest.idempotency_key r2 = module_uuid)
    by (unfold r2, parse_transfer_request; cbn; now rewrite H2).
  split; [exact K1|]. split; [congruence|].
  intros env env' db resp db1 Hrun.
  rewrite run_create_transfer in Hrun.
  destruct (transfer_outcome r1 env db [] 0 0) as [[o d] j] eqn:E.
  cbn [fst snd] in Hrun. injection Hrun as -> ->.
  destruct (success_leaves_key _ _ _ _ _ _ _ _ _ E) as (_ & x & Hk & Hx).
  rewrite K1, <- K2 in Hk.
  rewrite run_create_transfer. cbn [snd]. split.
  - apply (existing_key_no_write r2 env' db1 [] 0%nat 0%nat x Hk).
  - intros Hv.
    rewrite (existing_key_short_circuits r2 env' db1 [] 0%nat 0%nat x Hv Hk).
    cbn [fst snd]. now rewrite Hx.
Qed.

(** Account 2 to account 3, amount 70 and no key, after the first
    request without a key: the answer is the first transfer. *)
Lemma requests_without_key_share_one_key_witness :
  run (TransferService.create_transfer
         (parse_transfer_request MODULE_UUID body_without_key_3))
    env_ok (snd first_call_without_key)
  = first_call_without_key.
Proof.
  assert (H : run (TransferService.create_transfer
                     (parse_transfer_request MODULE_UUID body_without_key_1))
                env_ok seed_database = first_call_without_key)
    by (vm_compute; reflexivity).
  unfold first_call_without_key in *. cbn [snd].
  refine (proj2 (proj2 (proj2 (requests_without_key_share_one_key MODULE_UUID
            body_without_key_1 body_without_key_3 eq_refl eq_refl))
            env_ok env_ok seed_database _ _ H) _).
  split; [simpl; lia|left; discriminate].
Defined.

(** ** INITIAL_DEPOSIT between two accounts *)




(* ------------------------------------------------------------------ *)
(** * Further properties of the transfer workflow *)

(** X1: a request that passes validation and carries a new idempotency
    key, but whose source or destination account is not in the accounts
    table, is answered with 404 [Account not found]; the database is left
    as it was. *)
Theorem transfer_with_missing_account env db r :
  passes_validation r ->
  find_transfer_by_key db (CreateTransferRequest.idempotency_key r) = None ->
  find_account db (CreateTransferRequest.source_account_id r) = None
  \/ find_account db (CreateTransferRequest.destination_account_id r) = None ->
  run (TransferService.create_transfer r) env db = (Raise AccountNotFound, db).
Proof.
  intros Hv Hk Hmiss. destruct (passes_validation_checks r Hv) as [Ha Hs].
  rewrite run_create_transfer. unfold transfer_outcome.
  rewrite Ha, Hs, Hk.
  destruct Hmiss as [H|H]; rewrite H; [reflexivity|].
  destruct (find_account db (CreateTransferRequest.source_account_id r));
    reflexivity.
Qed.

Lemma transfer_with_missing_account_witness :
  run (TransferService.create_transfer transfer_to_unknown_account) env_ok
    seed_database = (Raise AccountNotFound, seed_database).
Proof.
  apply transfer_with_missing_account.
  - split; [simpl; lia|left; discriminate].
  - vm_compute. reflexivity.
  - right. vm_compute. reflexivity.
Defined.

(** X2: with both accounts on file and a new idempotency key, a source
    that is not ACTIVE is answered with 400 [Account ... is not active]
    naming the source; an ACTIVE source with a destination that is not
    ACTIVE is answered with the same error naming the destination.  The
    database is left as it was. *)
Theorem transfer_with_inactive_account env db r sa da :
  passes_validation r ->
  find_transfer_by_key db (CreateTransferRequest.idempotency_key r) = None ->
  find_account db (CreateTransferRequest.source_account_id r) = Some sa ->
  find_account db (CreateTransferRequest.destination_account_id r) = Some da ->
  (AccountDB.status sa <> ACTIVE ->
   run (TransferService.create_transfer r) env db
   = (Raise (AccountNotActive (CreateTransferRequest.source_account_id r)),
      db))
  /\ (AccountDB.status sa = ACTIVE ->
      AccountDB.status da <> ACTIVE ->
      run (TransferService.create_transfer r) env db
      = (Raise (AccountNotActive
                  (CreateTransferRequest.destination_account_id r)), db)).
Proof.
  intros Hv Hk Hsa Hda. destruct (passes_validation_checks r Hv) as [Ha Hs].
  rewrite run_create_transfer. unfold transfer_outcome.
  rewrite Ha, Hs, Hk, Hsa, Hda.
  rewrite (find_account_id _ _ _ Hsa), (find_account_id _ _ _ Hda).
  unfold is_active. split.
  - intros Hn. destruct (AccountStatus_eqb (AccountDB.status sa) ACTIVE) eqn:E;
      [apply AccountStatus_eqb_eq in E; contradiction|reflexivity].
  - intros Hact Hn. rewrite Hact. cbn [AccountStatus_eqb negb].
    destruct (AccountStatus_eqb (AccountDB.status da) ACTIVE) eqn:E;
      [apply AccountStatus_eqb_eq in E; contradiction|reflexivity].
Qed.

Lemma transfer_with_inactive_account_witness :
  run (TransferService.create_transfer transfer_50_from_inactive) env_ok
    seed_database = (Raise (AccountNotActive ACCOUNT_ID_4), seed_database)
  /\ run (TransferService.create_transfer transfer_50_to_inactive) env_ok
       seed_database = (Raise (AccountNotActive ACCOUNT_ID_4), seed_database).
Proof.
  split.
  - refine (proj1 (transfer_with_inactive_account env_ok seed_database
                     transfer_50_from_inactive
                     (AccountDB.mk ACCOUNT_ID_4 CUSTOMER_ID_3
                        "DE-2025-GGGG-HHHH" 0 1 INACTIVE)
                     (AccountDB.mk ACCOUNT_ID_1 CUSTOMER_ID_1
                        "DE-2025-AAAA-BBBB" 1000 1 ACTIVE) _ _ _ _) _).
    + split; [simpl; lia|left; discriminate].
    + vm_compute. reflexivity.
    + vm_compute. reflexivity.
    + vm_compute. reflexivity.
    + discriminate.
  - refine (proj2 (transfer_with_inactive_account env_ok seed_database
                     transfer_50_to_inactive
                     (AccountDB.mk ACCOUNT_ID_1 CUSTOMER_ID_1
                        "DE-2025-AAAA-BBBB" 1000 1 ACTIVE)
                     (AccountDB.mk ACCOUNT_ID_4 CUSTOMER_ID_3
                        "DE-2025-GGGG-HHHH" 0 1 INACTIVE) _ _ _ _) _ _).
    + split; [simpl; lia|left; discriminate].
    + vm_compute. reflexivity.
    + vm_compute. reflexivity.
    + vm_compute. reflexivity.
    + reflexivity.
    + discriminate.
Defined.

(** X3: when the id drawn for the new transfer row is already the primary
    key of a row, a request that passed every check is answered with 400
    [A transfer with this idempotency key already exists], although its
    idempotency key is new; nothing is written. *)
Theorem transfer_id_in_use_is_reported_as_duplicate_key env db r sa da y :
  passes_validation r ->
  find_transfer_by_key db (CreateTransferRequest.idempotency_key r) = None ->
  find_account db (CreateTransferRequest.source_account_id r) = Some sa ->
  find_account db (CreateTransferRequest.destination_account_id r) = Some da ->
  AccountDB.status sa = ACTIVE ->
  AccountDB.status da = ACTIVE ->
  (CreateTransferRequest.transfer_type r = STANDARD ->
   CreateTransferRequest.amount r <= AccountDB.current_balance sa) ->
  find_transfer db (uuid_source env 0) = Some y ->
  run (TransferService.create_transfer r) env db
  = (Raise (HTTPException 400 Idempotency_key_already_exists), db).
Proof.
  intros Hv Hk Hsa Hda Hsact Hdact Hfunds Hy.
  destruct (passes_validation_checks r Hv) as [Ha Hs].
  rewrite run_create_transfer. unfold transfer_outcome.
  rewrite Ha, Hs, Hk, Hsa, Hda. unfold is_active.
  rewrite Hsact, Hdact, Hy. cbn [AccountStatus_eqb negb is_some].
  unfold is_initial_deposit_request in *.
  destruct (CreateTransferRequest.transfer_type r); cbn [TransferType_eqb negb].
  - now rewrite andb_false_r.
  - specialize (Hfunds eq_refl).
    destruct (Z.ltb_spec (AccountDB.current_balance sa)
                (CreateTransferRequest.amount r)); [lia|reflexivity].
Qed.

Lemma transfer_id_in_use_is_reported_as_duplicate_key_witness :
  find_transfer_by_key seed_database
    (CreateTransferRequest.idempotency_key transfer_200) = None
  /\ run (TransferService.create_transfer transfer_200)
       (env_drawing TRANSFER_ID_1) seed_database
     = (Raise (HTTPException 400 Idempotency_key_already_exists),
        seed_database).
Proof.
  split; [vm_compute; reflexivity|].
  apply (transfer_id_in_use_is_reported_as_duplicate_key
           (env_drawing TRANSFER_ID_1) seed_database transfer_200
           (AccountDB.mk ACCOUNT_ID_1 CUSTOMER_ID_1 "DE-2025-AAAA-BBBB"
              1000 1 ACTIVE)
           (AccountDB.mk ACCOUNT_ID_2 CUSTOMER_ID_2 "DE-2025-CCCC-DDDD"
              500 1 ACTIVE)
           (TransferDB.mk TRANSFER_ID_1 ACCOUNT_ID_1 ACCOUNT_ID_2 100 KEY_1
              "Initial test transfer" STANDARD COMPLETED false)).
  - split; [simpl; lia|left; discriminate].
  - vm_compute. reflexivity.
  - vm_compute. reflexivity.
  - vm_compute. reflexivity.
  - reflexivity.
  - reflexivity.
  - intros _. simpl. lia.
  - vm_compute. reflexivity.
Defined.

(** X4: a call of [create_transfer] that raises either leaves the
    database as it was, or leaves the transfer row it inserted: in status
    PENDING, or in status COMPLETED when the error is the 500 of the
    enclosing transaction's commit.  The row is never removed nor marked
    FAILED. *)
Theorem failed_transfer_leaves_pending_row env db r e db' :
  run (TransferService.create_transfer r) env db = (Raise e, db') ->
  let tid := uuid_source env 0 in
  db' = db
  \/ (status_of db tid = None /\ status_of db' tid = Some PENDING)
  \/ (status_of db tid = None /\ status_of db' tid = Some COMPLETED
      /\ e = HTTPException 500 Error_while_processing_the_transfer).
Proof.
  rewrite run_create_transfer. unfold transfer_outcome.
  set (x := pending_row r (uuid_source env 0)).
  destruct (is_initial_deposit_request r); cbn [negb];
  split_outcome; cbn [fst snd]; try discriminate;
  intros [= <- <-]; cbv zeta; try (left; reflexivity); right;
  match goal with
  | H : is_some (find_transfer db _) = false |- _ =>
      apply is_some_false in H;
      pose proof (status_of_with_transfer_new db x H) as Hp;
      cbn [x pending_row TransferDB.id TransferDB.status] in Hp;
      fold x in Hp;
      assert (Hn : status_of db (uuid_source env 0) = None)
        by (unfold status_of; now rewrite H)
  end;
  first [ left; split; [exact Hn|exact Hp]
        | right; split; [exact Hn|];
          split; [eapply status_of_with_status_same; exact Hp|reflexivity] ].
Qed.

Lemma failed_transfer_leaves_pending_row_witness :
  status_of seed_database 0xc0%N = None
  /\ status_of
       (snd (run (TransferService.create_transfer transfer_200)
               (env_failing_commit 1) seed_database)) 0xc0%N
     = Some PENDING.
Proof.
  destruct (failed_transfer_leaves_pending_row (env_failing_commit 1)
              seed_database transfer_200
              (HTTPException 500 Failed_to_update_account_balance)
              (with_transfer seed_database
                 (pending_row transfer_200 0xc0%N)))
    as [H|[H|H]].
  - vm_compute. reflexivity.
  - exfalso. revert H. vm_compute. discriminate.
  - replace (snd (run (TransferService.create_transfer transfer_200)
                    (env_failing_commit 1) seed_database))
      with (with_transfer seed_database (pending_row transfer_200 0xc0%N))
      by (vm_compute; reflexivity).
    exact H.
  - exfalso. destruct H as (_ & _ & H). discriminate.
Defined.

(** Tables after a write: what the lookups find. *)
Lemma find_account_with_balance_any db i b v k :
  find_account (with_balance db i b v) k =
  option_map (fun a => if N.eqb (AccountDB.id a) i then set_balance a b v
                       else a)
    (find_account db k).
Proof.
  unfold find_account, with_balance, put_account. cbn [accounts].
  apply find_map_preserving. intros y.
  destruct (N.eqb (AccountDB.id y) i); reflexivity.
Qed.

Lemma account_identity_with_balance db i b v k :
  option_map account_identity (find_account (with_balance db i b v) k)
  = option_map account_identity (find_account db k).
Proof.
  rewrite find_account_with_balance_any.
  destruct (find_account db k) as [a|]; [|reflexivity].
  cbn [option_map]. destruct (N.eqb (AccountDB.id a) i); reflexivity.
Qed.

Lemma find_transfer_kept_transfer db x k y :
  find_transfer db k = Some y -> find_transfer (with_transfer db x) k = Some y.
Proof.
  unfold find_transfer, with_transfer. cbn [transfers].
  apply find_app_some.
Qed.

Lemma find_transfer_kept_status db i s k y :
  k <> i -> find_transfer db k = Some y ->
  find_transfer (with_status db i s) k = Some y.
Proof.
  intros Hne H. unfold find_transfer, with_status. cbn [transfers].
  rewrite find_put_status_other by congruence. exact H.
Qed.

Lemma length_put_account i b v l :
  List.length (put_account i b v l) = List.length l.
Proof. apply List.length_map. Qed.

(** X5: whatever its outcome, [create_transfer] leaves the customers
    table alone, neither adds nor removes an account, changes no account
    other than the source and the destination, changes no account's id,
    customer, number or status, changes no transfer row that was there
    and adds at most one. *)
Theorem create_transfer_touches_only_its_accounts env db r :
  let db' := snd (run (TransferService.create_transfer r) env db) in
  customers db' = customers db
  /\ List.length (accounts db') = List.length (accounts db)
  /\ (forall k,
        k <> CreateTransferRequest.source_account_id r ->
        k <> CreateTransferRequest.destination_account_id r ->
        find_account db' k = find_account db k)
  /\ (forall k,
        option_map account_identity (find_account db' k)
        = option_map account_identity (find_account db k))
  /\ (forall k y, find_transfer db k = Some y -> find_transfer db' k = Some y)
  /\ (List.length (transfers db') <= S (List.length (transfers db)))%nat.
Proof.
  rewrite run_create_transfer. unfold transfer_outcome.
  set (x := pending_row r (uuid_source env 0)).
  destruct (is_initial_deposit_request r); cbn [negb];
  split_outcome; cbn [fst snd]; cbv zeta;
  (split; [reflexivity|]);
  (split; [cbn [accounts with_status with_balance with_transfer];
           rewrite ?length_put_account; reflexivity|]);
  (split; [intros k Hs Hd;
           rewrite ?find_account_with_status;
           rewrite ?find_account_with_balance_other by congruence;
           reflexivity|]);
  (split; [intros k;
           rewrite ?find_account_with_status;
           rewrite ?account_identity_with_balance;
           reflexivity|]);
  (split; [|cbn [transfers with_status with_balance with_transfer];
            unfold put_status; rewrite ?List.length_map, ?List.length_app;
            cbn [List.length]; lia]);
  intros k y Hy; try exact Hy;
  match goal with
  | H : is_some (find_transfer db _) = false |- _ =>
      apply is_some_false in H;
      assert (Hne : k <> uuid_source env 0)
        by (intros ->; rewrite H in Hy; discriminate)
  end;
  repeat first
    [ apply find_transfer_kept_status; [exact Hne|]
    | rewrite find_transfer_with_balance
    | apply find_transfer_kept_transfer ];
  exact Hy.
Qed.



(** Reading a transfer. *)
Lemma run_get_transfer i env db :
  run (TransferService.get_transfer i) env db
  = (match find_transfer db i with
     | Some x => Ret (TransferDetailsResponse.model_validate x)
     | None => Raise (HTTPException 500 Failed_to_get_transfer)
     end, db).
Proof.
  rewrite run_observe. unfold open_session.
  now rewrite get_transfer_observed.
Qed.

Lemma find_by_id_of_member l x :
  NoDup (map TransferDB.id l) -> In x l ->
  find (fun y => N.eqb (TransferDB.id y) (TransferDB.id x)) l = Some x.
Proof.
  induction l as [|y l IH]; intros Hnd Hin; [contradiction|].
  cbn [map] in Hnd. apply NoDup_cons_iff in Hnd. destruct Hnd as [Hy Hnd].
  cbn [find]. destruct (N.eqb (TransferDB.id y) (TransferDB.id x)) eqn:E.
  - apply N.eqb_eq in E. destruct Hin as [->|Hin]; [reflexivity|].
    exfalso. apply Hy. rewrite E. now apply in_map.
  - destruct Hin as [->|Hin]; [now rewrite N.eqb_refl in E|].
    now apply IH.
Qed.

(** X8: with transfer ids unique, the response of a successful
    [create_transfer] is what [get_transfer] returns afterwards for the
    response's id, and reading changes nothing. *)
Theorem get_transfer_after_create_transfer env db r resp db' :
  transfer_ids_unique db ->
  run (TransferService.create_transfer r) env db = (Ret resp, db') ->
  forall env',
    run (TransferService.get_transfer (TransferDetailsResponse.id resp))
      env' db'
    = (Ret resp, db').
Proof.
  intros Hu. rewrite run_create_transfer. unfold transfer_outcome.
  set (x := pending_row r (uuid_source env 0)).
  destruct (CreateTransferRequest.amount r <=? 0); [discriminate|].
  destruct (N.eqb _ _ && negb _); [discriminate|].
  destruct (find_transfer_by_key db _) as [y|] eqn:Ek.
  - cbn [fst snd]. intros [= <- <-] env'. rewrite run_get_transfer.
    unfold find_transfer_by_key in Ek. apply find_some in Ek.
    destruct Ek as [Hin _].
    cbn [TransferDetailsResponse.model_validate TransferDetailsResponse.id].
    unfold find_transfer. now rewrite (find_by_id_of_member _ _ Hu Hin).
  - destruct (is_initial_deposit_request r); cbn [negb];
    split_outcome; cbn [fst snd]; try discriminate;
    intros [= <- <-] env'; rewrite run_get_transfer;
    cbn [TransferDetailsResponse.model_validate TransferDetailsResponse.id
         TransferDB.set_status TransferDB.id];
    match goal with
    | H : is_some (find_transfer db _) = false |- _ =>
        apply is_some_false in H;
        pose proof (find_transfer_with_transfer_new db x H) as Hf;
        cbn [x pending_row TransferDB.id] in Hf; fold x in Hf
    end;
    erewrite find_transfer_with_status_same
      by (rewrite ?find_transfer_with_balance; exact Hf);
    reflexivity.
Qed.

Lemma get_transfer_after_create_transfer_witness :
  run (TransferService.get_transfer 0xc0%N) env_ok (snd transfer_200_done)
  = transfer_200_done.
Proof.
  assert (H : run (TransferService.create_transfer transfer_200) env_ok
                seed_database = transfer_200_done)
    by (vm_compute; reflexivity).
  unfold transfer_200_done in *. cbn [snd].
  refine (get_transfer_after_create_transfer env_ok seed_database
            transfer_200 _ _ _ H env_ok).
  unfold transfer_ids_unique. cbn.
  repeat constructor; cbn; intuition discriminate.
Defined.

(** X9: [get_transfer] on an id that is not in the transfers table
    answers 500 [Failed to get transfer], not 404: the repository's
    [AppError] is not an [HTTPException] and falls to the catch-all
    handler. *)
Theorem get_transfer_unknown_is_500 env db i :
  find_transfer db i = None ->
  run (TransferService.get_transfer i) env db
  = (Raise (HTTPException 500 Failed_to_get_transfer), db).
Proof. intros H. rewrite run_get_transfer. now rewrite H. Qed.

Lemma get_transfer_unknown_is_500_witness :
  run (TransferService.get_transfer 0x99%N) env_ok seed_database
  = (Raise (HTTPException 500 Failed_to_get_transfer), seed_database).
Proof.
  apply get_transfer_unknown_is_500. vm_compute. reflexivity.
Defined.

(* ------------------------------------------------------------------ *)
(** * The transfer history *)

(** ORDER BY: a sorted permutation. *)
Lemma insert_desc_perm {A} (key : A -> Z) x l :
  Permutation (insert_desc key x l) (x :: l).
Proof.
  induction l as [|y l IH]; cbn [insert_desc]; [reflexivity|].
  destruct (key y <=? key x); [reflexivity|].
  rewrite IH. apply perm_swap.
Qed.

Lemma order_by_desc_perm {A} (key : A -> Z) l :
  Permutation (order_by_desc key l) l.
Proof.
  induction l as [|x l IH]; cbn; [constructor|].
  fold (order_by_desc key l). rewrite insert_desc_perm. now constructor.
Qed.

Lemma insert_desc_sorted {A} (key : A -> Z) x l :
  newest_first key l -> newest_first key (insert_desc key x l).
Proof.
  unfold newest_first.
  induction l as [|y l IH]; cbn [insert_desc]; intros Hs.
  - constructor; constructor.
  - inversion Hs as [|? ? Hl Hy]; subst.
    destruct (Z.leb_spec (key y) (key x)) as [Hle|Hgt].
    + constructor; [exact Hs|].
      constructor; [exact Hle|].
      rewrite Forall_forall in *. intros z Hz. specialize (Hy z Hz). lia.
    + constructor; [now apply IH|].
      rewrite Forall_forall in *. intros z Hz.
      apply (Permutation_in _ (insert_desc_perm key x l)) in Hz.
      destruct Hz as [<-|Hz]; [lia|now apply Hy].
Qed.

Lemma order_by_desc_sorted {A} (key : A -> Z) l :
  newest_first key (order_by_desc key l).
Proof.
  induction l as [|x l IH]; cbn; [constructor|].
  now apply insert_desc_sorted.
Qed.

Lemma runW_get_account_transfer_history created_at i env db :
  runW (TransferService.get_account_transfer_history created_at i) env db
  = (match find_account db i with
     | Some _ =>
         Returns (map TransferDetailsResponse.model_validate
                    (firstn 100
                       (order_by_desc created_at
                          (filter (involves i) (transfers db)))))
     | None => Raises (Earlier AccountNotFound)
     end, db).
Proof.
  unfold runW, open_session, TransferService.get_account_transfer_history,
    catchW, lift, bind.
  rewrite get_account_eq.
  destruct (find_account db i); reflexivity.
Qed.

(** X10: the transfer history of an account that is not on file is 404
    [Account not found]; nothing is written. *)
Theorem transfer_history_of_unknown_account created_at i env db :
  find_account db i = None ->
  runW (TransferService.get_account_transfer_history created_at i) env db
  = (Raises (Earlier AccountNotFound), db).
Proof.
  intros H. rewrite runW_get_account_transfer_history. now rewrite H.
Qed.

Lemma transfer_history_of_unknown_account_witness :
  runW (TransferService.get_account_transfer_history created_at_by_id 0x99%N)
    env_ok seed_database
  = (Raises (Earlier AccountNotFound), seed_database).
Proof.
  apply transfer_history_of_unknown_account. vm_compute. reflexivity.
Defined.

(** X11: the transfer history of an account on file is the head of the
    list of all transfers with that account as source or destination,
    ordered newest first by [created_at]: the rows returned followed by
    the rows left out are a permutation of those transfers in descending
    order, and min(100, their number) rows are returned.  Nothing is
    written. *)
Theorem transfer_history_of_known_account created_at i env db a :
  find_account db i = Some a ->
  exists rows rest,
    runW (TransferService.get_account_transfer_history created_at i) env db
    = (Returns (map TransferDetailsResponse.model_validate rows), db)
    /\ Permutation (rows ++ rest) (filter (involves i) (transfers db))
    /\ newest_first created_at (rows ++ rest)
    /\ List.length rows
       = Nat.min 100 (List.length (filter (involves i) (transfers db))).
Proof.
  intros H. rewrite runW_get_account_transfer_history, H.
  set (l := order_by_desc created_at (filter (involves i) (transfers db))).
  exists (firstn 100 l), (skipn 100 l).
  split; [reflexivity|]. rewrite firstn_skipn.
  split; [apply order_by_desc_perm|].
  split; [apply order_by_desc_sorted|].
  rewrite List.length_firstn. f_equal.
  apply Permutation_length, order_by_desc_perm.
Qed.

Lemma transfer_history_of_known_account_witness :
  exists rows rest,
    runW (TransferService.get_account_transfer_history created_at_by_id
            ACCOUNT_ID_1) env_ok (snd transfer_200_done)
    = (Returns (map TransferDetailsResponse.model_validate rows),
       snd transfer_200_done)
    /\ Permutation (rows ++ rest)
         (filter (involves ACCOUNT_ID_1) (transfers (snd transfer_200_done)))
    /\ newest_first created_at_by_id (rows ++ rest)
    /\ List.length rows
       = Nat.min 100
           (List.length
              (filter (involves ACCOUNT_ID_1)
                 (transfers (snd transfer_200_done)))).
Proof.
  apply (transfer_history_of_known_account created_at_by_id ACCOUNT_ID_1
           env_ok (snd transfer_200_done)
           (AccountDB.mk ACCOUNT_ID_1 CUSTOMER_ID_1 "DE-2025-AAAA-BBBB" 800 2
              ACTIVE)).
  vm_compute. reflexivity.
Defined.

(* ------------------------------------------------------------------ *)
(** * Further properties of account creation *)


Lemma run_get_all_accounts scan env db :
  run (AccountService.get_all_accounts scan) env db
  = (Ret (map AccountDetailsResponse.model_validate (scan (accounts db))),
     db).
Proof. reflexivity. Qed.

Lemma put_account_absent i b v l :
  find (fun a => N.eqb (AccountDB.id a) i) l = None ->
  put_account i b v l = l.
Proof.
  induction l as [|y l IH]; cbn [find put_account map]; [reflexivity|].
  destruct (N.eqb (AccountDB.id y) i); [discriminate|].
  intros H. f_equal. now apply IH.
Qed.

Lemma put_account_new i b v l a :
  find (fun y => N.eqb (AccountDB.id y) i) l = None ->
  AccountDB.id a = i ->
  put_account i b v (l ++ [a]) = l ++ [set_balance a b v].
Proof.
  intros Hn Hi. unfold put_account. rewrite map_app.
  fold (put_account i b v l). rewrite (put_account_absent _ _ _ _ Hn).
  cbn [map]. now rewrite Hi, N.eqb_refl.
Qed.



(** X13: whatever its outcome, [create_account] leaves the customers
    table alone and only appends: at most one account row and, only
    together with it, at most one transfer row; the rows that were there
    are unchanged. *)
Theorem create_account_only_appends env db r :
  let db' := snd (run (AccountService.create_account r) env db) in
  customers db' = customers db
  /\ exists new_accounts new_transfers,
       accounts db' = accounts db ++ new_accounts
       /\ transfers db' = transfers db ++ new_transfers
       /\ (List.length new_accounts <= 1)%nat
       /\ (List.length new_transfers <= List.length new_accounts)%nat.
Proof.
  rewrite run_create_account. unfold account_outcome.
  set (a := new_account r env 0). set (x := deposit_row r env 0).
  split_outcome; cbn [fst snd]; cbv zeta; (split; [reflexivity|]);
  bool_facts;
  try match goal with
  | H : is_some (find_account db _) = false |- _ => apply is_some_false in H
  end.
  all: try (exists [], []; rewrite !app_nil_r; cbn; repeat split; lia).
  all: try (exists [a], []; rewrite !app_nil_r; cbn; repeat split; lia).
  all: try (exists [a], [x]; cbn; repeat split; lia).
  exists [set_balance a (CreateAccountRequest.initial_deposit r) 2], [x].
  cbn [accounts transfers with_balance with_transfer with_account].
  split; [|cbn; repeat split; lia].
  apply put_account_new; [assumption|reflexivity].
Qed.

(** X14: after a successful [create_account], [get_all_accounts] returns,
    in whatever order the database scans the table, the details of the
    accounts that were there together with the response: a rearrangement
    of the response and the earlier listing. *)
Theorem get_all_accounts_after_create_account scan env db r resp db' :
  rearranges scan ->
  run (AccountService.create_account r) env db = (Ret resp, db') ->
  forall env',
  exists listing,
    run (AccountService.get_all_accounts scan) env' db' = (Ret listing, db')
    /\ Permutation listing
         (resp :: map AccountDetailsResponse.model_validate (accounts db)).
Proof.
  intros Hscan. rewrite run_create_account. unfold account_outcome.
  set (a := new_account r env 0). set (x := deposit_row r env 0).
  split_outcome; cbn [fst snd]; try discriminate;
  intros [= <- <-] env'; rewrite run_get_all_accounts; bool_facts;
  match goal with
  | H : is_some (find_account db _) = false |- _ => apply is_some_false in H
  end;
  (eexists; split; [reflexivity|]);
  rewrite (Permutation_map _ (Hscan _));
  cbn [accounts with_balance with_transfer with_account];
  rewrite ?put_account_new by (assumption || reflexivity);
  rewrite map_app; cbn [map];
  symmetry; apply Permutation_cons_append.
Qed.

(** The scan that returns the newest row first. *)
Lemma get_all_accounts_after_create_account_witness :
  exists listing,
    run (AccountService.get_all_accounts (@rev AccountDB.t)) env_ok
      (snd account_with_deposit_50_done)
    = (Ret listing, snd account_with_deposit_50_done)
    /\ Permutation listing
         (AccountDetailsResponse.mk 0xc1%N CUSTOMER_ID_1
            "DE-2025-0000-0000" ACTIVE
          :: map AccountDetailsResponse.model_validate
               (accounts seed_database)).
Proof.
  assert (H : run (AccountService.create_account account_with_deposit_50)
                env_ok seed_database = account_with_deposit_50_done)
    by (vm_compute; reflexivity).
  unfold account_with_deposit_50_done in *. cbn [snd].
  refine (get_all_accounts_after_create_account (@rev AccountDB.t) env_ok
            seed_database account_with_deposit_50 _ _ _ H env_ok).
  intros l. symmetry. apply Permutation_rev.
Defined.

(** X15: [create_account] with a positive deposit is not undone when the
    deposit fails.  With the customer on file, a fresh id and number and
    the first commit accepted: if the second commit is refused the call
    answers 500 and the new account stays, with balance 0; if the second
    is accepted and the third refused the call answers 500 and the
    account stays with balance 0 beside a COMPLETED deposit row of the
    full amount. *)
Theorem create_account_failure_keeps_account env db r cu :
  0 < CreateAccountRequest.initial_deposit r ->
  find_customer db (CreateAccountRequest.customer_id r) = Some cu ->
  find_account db (uuid_source env 1) = None ->
  find_account_by_number db (new_account_number env 0) = None ->
  commit_fails env 0 = false ->
  let a := new_account r env 0 in
  let x := deposit_row r env 0 in
  (commit_fails env 1 = true ->
   run (AccountService.create_account r) env db
   = (Raise (HTTPException 500 Failed_to_create_account), with_account db a))
  /\ (commit_fails env 1 = false ->
      commit_fails env 2 = true ->
      find_transfer db (uuid_source env 2) = None ->
      find_transfer_by_key db (uuid_source env 3) = None ->
      run (AccountService.create_account r) env db
      = (Raise (HTTPException 500 Failed_to_create_account),
         with_transfer (with_account db a) x))
  /\ find_account (with_account db a) (uuid_source env 1) = Some a
  /\ find_account (with_transfer (with_account db a) x) (uuid_source env 1)
     = Some a
  /\ AccountDB.current_balance a = 0
  /\ TransferDB.status x = COMPLETED
  /\ TransferDB.amount x = CreateAccountRequest.initial_deposit r.
Proof.
  intros Hpos Hc Hid Hnum H0 a x.
  rewrite run_create_account. unfold account_outcome.
  fold a x. cbn [a new_account AccountDB.id AccountDB.account_number].
  fold a.
  destruct (Z.ltb_spec (CreateAccountRequest.initial_deposit r) 0); [lia|].
  apply Z.gtb_lt in Hpos.
  rewrite Hc, Hid, Hnum, H0, Hpos. cbn [is_some orb].
  split; [|split; [|split; [|split; [|split; [|split]]]]];
    try reflexivity.
  - intros H1. rewrite H1, !orb_true_r. reflexivity.
  - intros H1 H2 Ht Hk.
    cbn [x deposit_row TransferDB.id TransferDB.idempotency_key]. fold x.
    rewrite Ht, Hk, H1, H2. reflexivity.
  - now apply find_account_with_account_new.
  - rewrite find_account_with_transfer.
    now apply find_account_with_account_new.
Qed.

Lemma create_account_failure_keeps_account_witness :
  run (AccountService.create_account account_with_deposit_50)
    (env_failing_commit 2) seed_database
  = (Raise (HTTPException 500 Failed_to_create_account),
     with_transfer
       (with_account seed_database
          (new_account account_with_deposit_50 (env_failing_commit 2) 0))
       (deposit_row account_with_deposit_50 (env_failing_commit 2) 0)).
Proof.
  refine (proj1 (proj2 (create_account_failure_keeps_account
                          (env_failing_commit 2) seed_database
                          account_with_deposit_50
                          (CustomerDB.mk CUSTOMER_ID_1 "Arisha Barron")
                          _ _ _ _ _)) _ _ _ _).
  - simpl. lia.
  - vm_compute. reflexivity.
  - vm_compute. reflexivity.
  - vm_compute. reflexivity.
  - reflexivity.
  - reflexivity.
  - reflexivity.
  - vm_compute. reflexivity.
  - vm_compute. reflexivity.
Defined.

(** The first eight digits are those of the leading 32 bits. *)
Lemma uuid_hex_high u i :
  (i <= 7)%N ->
  uuid_hex u i
  = hex_char (N.modulo (N.div (N.div u (2 ^ 96)) (16 ^ (7 - i))) 16).
Proof.
  intros Hi. unfold uuid_hex. f_equal. f_equal.
  rewrite N.Div0.div_div.
  f_equal.
  replace (31 - i)%N with (24 + (7 - i))%N by lia.
  rewrite N.pow_add_r. f_equal.
Qed.

(** X16: the account number depends only on the year and on the leading
    32 bits (the first 8 hexadecimal digits) of the UUID drawn: two UUIDs
    that agree there give the same number. *)
Theorem account_number_uses_first_8_hex_digits env env' u u' :
  current_year env = current_year env' ->
  (uuid_source env u / 2 ^ 96 = uuid_source env' u' / 2 ^ 96)%N ->
  new_account_number env u = new_account_number env' u'.
Proof.
  intros Hy Hu. unfold new_account_number, uuid_hex4.
  rewrite Hy.
  rewrite !(uuid_hex_high (uuid_source env u)) by (vm_compute; discriminate).
  rewrite !(uuid_hex_high (uuid_source env' u')) by (vm_compute; discriminate).
  now rewrite Hu.
Qed.

Lemma account_number_uses_first_8_hex_digits_witness :
  new_account_number env_ok 0 = new_account_number env_later 5.
Proof.
  apply account_number_uses_first_8_hex_digits.
  - reflexivity.
  - vm_compute. reflexivity.
Defined.

(** X17: when the account number built for the new account is already
    taken, [create_account] answers 500 [Failed to create account] and
    writes nothing; no second number is tried. *)
Theorem account_number_in_use_fails_create_account env db r cu a0 :
  0 <= CreateAccountRequest.initial_deposit r ->
  find_customer db (CreateAccountRequest.customer_id r) = Some cu ->
  find_account_by_number db (new_account_number env 0) = Some a0 ->
  run (AccountService.create_account r) env db
  = (Raise (HTTPException 500 Failed_to_create_account), db).
Proof.
  intros Hd Hc Hn. rewrite run_create_account. unfold account_outcome.
  cbn [new_account AccountDB.id AccountDB.account_number].
  destruct (Z.ltb_spec (CreateAccountRequest.initial_deposit r) 0); [lia|].
  rewrite Hc, Hn. cbn [is_some]. rewrite orb_true_r. reflexivity.
Qed.

Lemma account_number_in_use_fails_create_account_witness :
  find_account (snd account_with_deposit_50_done) (uuid_source env_later 1)
  = None
  /\ run (AccountService.create_account account_without_deposit) env_later
       (snd account_with_deposit_50_done)
     = (Raise (HTTPException 500 Failed_to_create_account),
        snd account_with_deposit_50_done).
Proof.
  split; [vm_compute; reflexivity|].
  apply (account_number_in_use_fails_create_account env_later
           (snd account_with_deposit_50_done) account_without_deposit
           (CustomerDB.mk CUSTOMER_ID_2 "Branden Gibson")
           (AccountDB.mk 0xc1%N CUSTOMER_ID_1 "DE-2025-0000-0000" 50 2
              ACTIVE)).
  - simpl. lia.
  - vm_compute. reflexivity.
  - vm_compute. reflexivity.
Defined.

(* ------------------------------------------------------------------ *)
(** * Customers *)

(** The customers table. *)
Lemma find_customer_with_customer_new db c :
  find_customer db (CustomerDB.id c) = None ->
  find_customer (with_customer db c) (CustomerDB.id c) = Some c.
Proof.
  intros H. unfold find_customer, with_customer. cbn [customers].
  unfold find_customer in H. rewrite (find_app_none _ _ _ H).
  now rewrite N.eqb_refl.
Qed.

Lemma runW_create_customer d n env db :
  runW (CustomerService.create_customer d n) env db
  = customer_outcome d n env db.
Proof.
  unfold customer_outcome, runW, open_session.
  cbv [CustomerService.create_customer CustomerRepo.create_customer bindW
       lift session_query bind session_flush get_session ret dirty txn
       durable journal n_commits n_uuids exec_all].
  destruct (find_customer_by_name db n) eqn:En; [reflexivity|].
  cbv [raises returns session_add_customer session_commit session_refresh
       bind session_flush get_session ret raise dirty txn durable journal
       n_commits n_uuids exec_all insert_customer CustomerDB.id].
  destruct (find_customer db d) eqn:Ed; cbn [is_some]; [reflexivity|].
  destruct (commit_fails env 0); [reflexivity|].
  fold (with_customer db (CustomerDB.mk d n)).
  pose proof (find_customer_with_customer_new db (CustomerDB.mk d n) Ed) as Hf.
  cbn [CustomerDB.id] in Hf. rewrite Hf. reflexivity.
Qed.

Lemma run_get_customer i env db :
  run (CustomerService.get_customer i) env db
  = (match find_customer db i with
     | Some c => Ret (CustomerFindResponse.model_validate c)
     | None => Raise CustomerNotFound
     end, db).
Proof.
  unfold run, open_session, CustomerService.get_customer, bind.
  rewrite get_customer_eq. destruct (find_customer db i); reflexivity.
Qed.

Lemma run_get_all_customers scan env db :
  run (CustomerService.get_all_customers scan) env db
  = (Ret (map CustomerFindResponse.model_validate (scan (customers db))),
     db).
Proof. reflexivity. Qed.

(** X18: [create_customer] with a name that is already on file answers
    400 [Customer already exists] and writes nothing. *)
Theorem create_customer_with_known_name d n env db c :
  find_customer_by_name db n = Some c ->
  runW (CustomerService.create_customer d n) env db
  = (Raises (HTTPException_more 400 Customer_already_exists), db).
Proof.
  intros H. rewrite runW_create_customer. unfold customer_outcome.
  now rewrite H.
Qed.

Lemma create_customer_with_known_name_witness :
  runW (CustomerService.create_customer 0xc0%N "Arisha Barron") env_ok
    seed_database
  = (Raises (HTTPException_more 400 Customer_already_exists), seed_database).
Proof.
  apply (create_customer_with_known_name 0xc0%N "Arisha Barron" env_ok
           seed_database (CustomerDB.mk CUSTOMER_ID_1 "Arisha Barron")).
  vm_compute. reflexivity.
Defined.

(** X19: after a successful [create_customer] the response carries the
    default id and the name, [get_customer] for that id returns the
    response, [get_all_customers] returns, in whatever order the database
    scans the table, a rearrangement of the response and the earlier
    customers, and accounts and transfers are untouched. *)
Theorem get_customer_after_create_customer scan d n env db resp db' :
  rearranges scan ->
  runW (CustomerService.create_customer d n) env db = (Returns resp, db') ->
  forall env',
    resp = CustomerFindResponse.mk d n
    /\ run (CustomerService.get_customer d) env' db' = (Ret resp, db')
    /\ (exists listing,
          run (CustomerService.get_all_customers scan) env' db'
          = (Ret listing, db')
          /\ Permutation listing
               (resp :: map CustomerFindResponse.model_validate
                          (customers db)))
    /\ accounts db' = accounts db
    /\ transfers db' = transfers db.
Proof.
  intros Hscan. rewrite runW_create_customer. unfold customer_outcome.
  destruct (find_customer_by_name db n); [discriminate|].
  destruct (find_customer db d) eqn:Ed; cbn [is_some]; [discriminate|].
  destruct (commit_fails env 0); [discriminate|].
  intros [= <- <-] env'.
  split; [reflexivity|]. split; [|split; [|split; reflexivity]].
  - rewrite run_get_customer.
    pose proof (find_customer_with_customer_new db (CustomerDB.mk d n) Ed)
      as Hf.
    cbn [CustomerDB.id] in Hf. now rewrite Hf.
  - rewrite run_get_all_customers. eexists. split; [reflexivity|].
    rewrite (Permutation_map _ (Hscan _)).
    unfold with_customer. cbn [customers]. rewrite map_app. cbn [map].
    symmetry. apply Permutation_cons_append.
Qed.

(** The scan that returns the newest row first. *)
Lemma get_customer_after_create_customer_witness :
  run (CustomerService.get_customer 0xc0%N) env_ok (snd customer_added)
  = (Ret (CustomerFindResponse.mk 0xc0%N "Carla Diaz"), snd customer_added)
  /\ exists listing,
       run (CustomerService.get_all_customers (@rev CustomerDB.t)) env_ok
         (snd customer_added)
       = (Ret listing, snd customer_added)
       /\ Permutation listing
            (CustomerFindResponse.mk 0xc0%N "Carla Diaz"
             :: map CustomerFindResponse.model_validate
                  (customers seed_database)).
Proof.
  assert (H : runW (CustomerService.create_customer 0xc0%N "Carla Diaz")
                env_ok seed_database = customer_added)
    by (vm_compute; reflexivity).
  assert (Hscan : rearranges (@rev CustomerDB.t))
    by (intros l; symmetry; apply Permutation_rev).
  unfold customer_added in *. cbn [snd].
  destruct (get_customer_after_create_customer (@rev CustomerDB.t) 0xc0%N
              "Carla Diaz" env_ok seed_database _ _ Hscan H env_ok)
    as (_ & Hget & Hall & _).
  split; [exact Hget|exact Hall].
Defined.

(** X20: the id of a new customer is the class-level default, drawn once
    when the module is loaded.  So after one successful [create_customer]
    every further call fails and writes nothing: 400 [Customer already
    exists] for a name on file, a primary-key violation of the database
    otherwise. *)
Theorem second_create_customer_fails d n env db resp db' :
  runW (CustomerService.create_customer d n) env db = (Returns resp, db') ->
  forall n' env',
    runW (CustomerService.create_customer d n') env' db'
    = (Raises (if String.eqb n n'
               then HTTPException_more 400 Customer_already_exists
               else match find_customer_by_name db n' with
                    | Some _ => HTTPException_more 400 Customer_already_exists
                    | None => Earlier (DBAPIError UniqueViolation)
                    end), db').
Proof.
  rewrite runW_create_customer. unfold customer_outcome.
  destruct (find_customer_by_name db n) eqn:En; [discriminate|].
  destruct (find_customer db d) eqn:Ed; cbn [is_some]; [discriminate|].
  destruct (commit_fails env 0); [discriminate|].
  intros [= <- <-] n' env'.
  rewrite runW_create_customer. unfold customer_outcome.
  pose proof (find_customer_with_customer_new db (CustomerDB.mk d n) Ed) as Hf.
  cbn [CustomerDB.id] in Hf.
  unfold find_customer_by_name at 1, with_customer at 1. cbn [customers].
  fold (find_customer_by_name db n').
  destruct (find_customer_by_name db n') eqn:En'.
  - unfold find_customer_by_name in En'.
    rewrite (find_app_some _ _ _ _ En').
    destruct (String.eqb n n'); reflexivity.
  - unfold find_customer_by_name in En'.
    rewrite (find_app_none _ _ _ En'). cbn [CustomerDB.name].
    destruct (String.eqb n n'); [reflexivity|].
    rewrite Hf. reflexivity.
Qed.

Lemma second_create_customer_fails_witness :
  runW (CustomerService.create_customer 0xc0%N "Dmitri Evans") env_ok
    (snd customer_added)
  = (Raises (Earlier (DBAPIError UniqueViolation)), snd customer_added).
Proof.
  assert (H : runW (CustomerService.create_customer 0xc0%N "Carla Diaz")
                env_ok seed_database = customer_added)
    by (vm_compute; reflexivity).
  unfold customer_added in *. cbn [snd].
  exact (second_create_customer_fails 0xc0%N "Carla Diaz" env_ok
           seed_database _ _ H "Dmitri Evans" env_ok).
Defined.
